(** * BISE Sargodha result scraper: a shallow embedding of [app.py]

    The script talks to three outside parties: the results web site (through a
    [requests.Session]), the HTML parser (BeautifulSoup on lxml) and the PDF
    writer (reportlab).  None of them is part of the program, so each one is
    an oracle of the environment [Env]; the program itself is embedded as
    functions in a state-and-exception monad over the trace of what the run
    has done to the outside so far. *)

From Stdlib Require Import ZArith String Ascii List Lia DecimalString QArith.
From Stdlib Require DecimalPos DecimalZ.
From stdpp Require Import base option list gmap strings.

Local Open Scope string_scope.
Local Open Scope Z_scope.

(** ** Python values *)

(** The values that reach a record field or a table cell: the roll number of
    the driver loop is an [int], everything read from a page is a [str]. *)
Inductive PyVal : Type :=
  | VInt (z : Z)
  | VStr (s : string).

(** [str(int)]: decimal digits, no leading zero, a leading [-] below zero. *)
Definition str_of_int (z : Z) : string := NilZero.string_of_int (Z.to_int z).

(** Python's [str(v)]. *)
Definition py_str (v : PyVal) : string :=
  match v with
  | VInt z => str_of_int z
  | VStr s => s
  end.

(** A raised exception, as far as the script can see it: the name of its
    class, and [str(e)], which is what the handler formats. *)
Record PyExc : Type := mkExc { exc_class : string; exc_str : string }.

(** The builtin classes that derive from [BaseException] and not from
    [Exception].  Every other class derives from [Exception]: requests'
    [Timeout] and [ConnectionError], lxml's and bs4's errors, [TypeError],
    [KeyError], [OSError]. *)
Definition outside_Exception : list string :=
  ["BaseException"; "KeyboardInterrupt"; "SystemExit"; "GeneratorExit"].

(** [isinstance(e, Exception)]. *)
Definition is_Exception (e : PyExc) : bool :=
  negb (existsb (String.eqb (exc_class e)) outside_Exception).

Inductive result (A : Type) : Type :=
  | Ok (a : A)
  | Raise (e : PyExc).
Arguments Ok {A} a.
Arguments Raise {A} e.

(** ** The parsed page *)

(** An element of the page: its attributes and what [get_text(strip=True)]
    returns for it. *)
Record Tag : Type := mkTag {
  attrs : gmap string string;
  get_text_strip : string
}.

(** The parsed page as the script observes it: for each element id, the first
    element carrying it. *)
Definition Soup : Type := gmap string Tag.

(** [soup.select_one("#ident")]: the first element with that id, or [None]. *)
Definition select_one (soup : Soup) (selector : string) : option Tag :=
  match selector with
  | String "#" ident => soup !! ident
  | _ => None
  end.

(** [x[key]] where [x] is the outcome of [select_one]: [None] is not
    subscriptable, and a tag without the attribute raises [KeyError]. *)
Definition subscript (x : option Tag) (key : string) : result string :=
  match x with
  | None => Raise (mkExc "TypeError" "'NoneType' object is not subscriptable")
  | Some tag =>
      match attrs tag !! key with
      | Some v => Ok v
      | None => Raise (mkExc "KeyError" ("'" ++ key ++ "'"))
      end
  end.

(** ** Network requests and responses *)

Inductive Request : Type :=
  | Get (url : string) (timeout : Z)
  | Post (url : string) (data headers : list (string * string)) (timeout : Z).

(** A response: [text] decodes the body under the current [encoding]. *)
Record Response : Type := mkResponse {
  encoding : string;
  decode : string -> string
}.

Definition set_encoding (enc : string) (r : Response) : Response :=
  {| encoding := enc; decode := decode r |}.

Definition text (r : Response) : string := decode r (encoding r).

(** ** Records and the document *)

(** A lookup record is a Python [dict] from field names to values,
    [gmap string PyVal].  The dict literal [{"Roll No": a, "Name": b, "Result": c}]. *)
Definition mk_record (roll name res : PyVal) : gmap string PyVal :=
  <["Result" := res]> (<["Name" := name]> (<["Roll No" := roll]> ∅)).

(** [d.get(key, default)]. *)
Definition dict_get (d : gmap string PyVal) (key : string) (dflt : PyVal) : PyVal :=
  default dflt (d !! key).

Inductive StyleArg : Type :=
  | AColor (name : string)
  | AText (s : string)
  | ANum (q : Q)
  | AColors (names : list string).

(** One [TableStyle] command: its name, the two corner cells and the
    arguments. *)
Record StyleCmd : Type := mkCmd {
  cmd_name : string;
  cmd_from : Z * Z;
  cmd_to : Z * Z;
  cmd_args : list StyleArg
}.

Inductive PageSize : Type :=
  | A4
  | landscape (p : PageSize).

Inductive Flowable : Type :=
  | Paragraph (txt style : string)
  | Spacer (width height : Z)
  | Table (rows : list (list PyVal)) (colWidths : list Z) (style : list StyleCmd).

(** ** The outside world *)

(** What the run does to the outside, in order: a request sent through the
    session, a line or a record printed, a call of [doc.build]. *)
Inductive Event : Type :=
  | EvRequest (r : Request)
  | EvPrint (line : string)
  | EvPrintRecord (d : gmap string PyVal)
  | EvBuild (filename : string) (pagesize : PageSize) (story : list Flowable).

Definition Trace : Type := list Event.

(** The collaborators.  The server answers a request in view of everything the
    run has done before it; so does the document writer, which either writes
    the file ([None]) or raises. *)
Record Env : Type := mkEnv {
  server : Trace -> Request -> result Response;
  BeautifulSoup : string -> string -> result Soup;
  doc_build : Trace -> string -> PageSize -> list Flowable -> option PyExc
}.

(** ** The monad of the script: a trace that grows, and exceptions *)

Definition M (A : Type) : Type := Trace -> result A * Trace.

Definition ret {A} (a : A) : M A := fun tr => (Ok a, tr).

Definition bind {A B} (m : M A) (k : A -> M B) : M B :=
  fun tr =>
    match m tr with
    | (Ok a, tr') => k a tr'
    | (Raise e, tr') => (Raise e, tr')
    end.

(** An outcome computed without touching the world. *)
Definition lift {A} (r : result A) : M A := fun tr => (r, tr).

(** [try: body except Exception as e: handler(e)]: the handler takes the
    instances of [Exception]; anything else goes on propagating. *)
Definition try_except {A} (body : M A) (handler : PyExc -> M A) : M A :=
  fun tr =>
    match body tr with
    | (Ok a, tr') => (Ok a, tr')
    | (Raise e, tr') => if is_Exception e then handler e tr' else (Raise e, tr')
    end.

Declare Scope py_scope.
Delimit Scope py_scope with py.
Notation "'do' x <- m ; k" := (bind m (fun x => k))
  (at level 10, x pattern, m at level 100, k at level 200) : py_scope.
Notation "m ;;; k" := (bind m (fun _ => k))
  (at level 100, k at level 200, right associativity) : py_scope.

(** [print(line)] and [print(record)]. *)
Definition print (line : string) : M unit :=
  fun tr => (Ok tt, (tr ++ [EvPrint line])%list).

Definition print_record (d : gmap string PyVal) : M unit :=
  fun tr => (Ok tt, (tr ++ [EvPrintRecord d])%list).

(** ** The script *)

Definition BASE : string := "http://119.159.230.2/biseresultday2/resultday.aspx".

(** Truth value of a [str]. *)
Definition str_truthy (s : string) : bool := negb (String.eqb s "").

Section Script.
Variable env : Env.

Local Open Scope py_scope.

(** [session.get(url, timeout=t)] and
    [session.post(url, data=d, headers=h, timeout=t)]: the request goes out,
    and either a response comes back or the call raises.  The session is the
    one of the run; its cookies and connections are part of what the server
    sees in the trace. *)
Definition send (rq : Request) : M Response :=
  fun tr => (server env tr rq, (tr ++ [EvRequest rq])%list).

Definition session_get (url : string) (timeout : Z) : M Response :=
  send (Get url timeout).

Definition session_post (url : string) (data headers : list (string * string))
    (timeout : Z) : M Response :=
  send (Post url data headers timeout).

(** [get_tokens(session)]. *)
Definition get_tokens : M (string * string) :=
  do r <- session_get BASE 20;
  let r := set_encoding "utf-8" r in
  do soup <- lift (BeautifulSoup env (text r) "lxml");
  do viewstate <- lift (subscript (select_one soup "#__VIEWSTATE") "value");
  do eventvalidation <- lift (subscript (select_one soup "#__EVENTVALIDATION") "value");
  ret (viewstate, eventvalidation).

(** The form that [fetch_one_roll] posts, and its headers. *)
Definition payload (viewstate eventvalidation : string) (roll_no : PyVal)
    : list (string * string) :=
  [ ("__VIEWSTATE", viewstate);
    ("__EVENTVALIDATION", eventvalidation);
    ("__EVENTTARGET", "");
    ("__EVENTARGUMENT", "");
    ("RbtSearchType", "Search by Roll No.");
    ("TxtSearchText", py_str roll_no);
    ("BtnShowResults", "Show Result") ].

Definition headers : list (string * string) :=
  [ ("User-Agent", "Mozilla/5.0"); ("Referer", BASE) ].

(** The part of [fetch_one_roll] that reads the parsed answer: from
    [err = soup.select_one("#LblErr")] to the two [return]s of the [try]
    block. *)
Definition read_result (soup : Soup) (roll_no : PyVal) : gmap string PyVal :=
  let success :=
    let name_tag := select_one soup "#LblName" in
    let name := match name_tag with Some t => get_text_strip t | None => "" end in
    let roll_tag := select_one soup "#LblRollNo" in
    let roll_on_page :=
      match roll_tag with Some t => get_text_strip t | None => py_str roll_no end in
    let res_tag := select_one soup "#lblGazres" in
    let final_result := match res_tag with Some t => get_text_strip t | None => "" end in
    mk_record (VStr roll_on_page) (VStr name) (VStr final_result) in
  let err := select_one soup "#LblErr" in
  match err with
  | Some e =>
      if str_truthy (get_text_strip e)
      then mk_record roll_no (VStr "") (VStr (get_text_strip e))
      else success
  | None => success
  end.

(** The body of the [try] block of [fetch_one_roll]. *)
Definition fetch_body (roll_no : PyVal) : M (gmap string PyVal) :=
  do (viewstate, eventvalidation) <- get_tokens;
  do resp <- session_post BASE (payload viewstate eventvalidation roll_no) headers 20;
  let resp := set_encoding "utf-8" resp in
  do soup <- lift (BeautifulSoup env (text resp) "lxml");
  ret (read_result soup roll_no).

(** [fetch_one_roll(session, roll_no)]. *)
Definition fetch_one_roll (roll_no : PyVal) : M (gmap string PyVal) :=
  try_except (fetch_body roll_no)
    (fun e => ret (mk_record roll_no (VStr "") (VStr ("Error: " ++ exc_str e)))).

(** The header of the table, and the row of one record. *)
Definition header_row : list PyVal :=
  [VStr "Roll No"; VStr "Name"; VStr "Final Result"].

Definition row_of (entry : gmap string PyVal) : list PyVal :=
  [ dict_get entry "Roll No" (VStr "");
    dict_get entry "Name" (VStr "");
    dict_get entry "Result" (VStr "") ].

(** [rows = [header]], then [rows.append(...)] for each entry in turn. *)
Definition table_rows (data_list : list (gmap string PyVal)) : list (list PyVal) :=
  fold_left (fun rows entry => (rows ++ [row_of entry])%list) data_list [header_row].

Definition table_style : list StyleCmd :=
  [ mkCmd "BACKGROUND" (0, 0) (-1, 0) [AColor "darkblue"];
    mkCmd "TEXTCOLOR" (0, 0) (-1, 0) [AColor "whitesmoke"];
    mkCmd "ALIGN" (0, 0) (-1, -1) [AText "CENTER"];
    mkCmd "FONTNAME" (0, 0) (-1, 0) [AText "Helvetica-Bold"];
    mkCmd "FONTSIZE" (0, 0) (-1, 0) [ANum 12];
    mkCmd "ROWBACKGROUNDS" (0, 1) (-1, -1) [AColors ["whitesmoke"; "lightgrey"]];
    mkCmd "GRID" (0, 0) (-1, -1) [ANum (1 # 2); AColor "black"];
    mkCmd "BOTTOMPADDING" (0, 0) (-1, 0) [ANum 8] ].

(** The story handed to [doc.build]: title, space, table. *)
Definition elements_of (data_list : list (gmap string PyVal)) : list Flowable :=
  [ Paragraph "BISE Sargodha Exam Results (Summary)" "Title";
    Spacer 1 20;
    Table (table_rows data_list) [100; 180; 250] table_style ].

(** [doc.build(elements)] on [SimpleDocTemplate(filename, pagesize=...)]. *)
Definition build (filename : string) (pagesize : PageSize) (story : list Flowable)
    : M unit :=
  fun tr =>
    (match doc_build env tr filename pagesize story with
     | None => Ok tt
     | Some e => Raise e
     end,
     (tr ++ [EvBuild filename pagesize story])%list).

(** [save_summary_pdf(data_list, filename)]. *)
Definition save_summary_pdf (data_list : list (gmap string PyVal)) (filename : string)
    : M unit :=
  build filename (landscape A4) (elements_of data_list);;;
  print ("✅ PDF saved: " ++ filename).

(** [range(start, stop)]. *)
Definition py_range (start stop : Z) : list Z := seqZ start (stop - start).

(** A [for] loop that threads the variables it assigns. *)
Fixpoint for_each {A S : Type} (body : S -> A -> M S) (xs : list A) (acc : S) : M S :=
  match xs with
  | [] => ret acc
  | x :: xs' => do acc' <- body acc x; for_each body xs' acc'
  end.

(** The progress line [f"Fetching result for Roll No: {rn}..."]. *)
Definition progress_line (rn : Z) : string :=
  "Fetching result for Roll No: " ++ str_of_int rn ++ "...".

(** One turn of the driver loop, on the list [results] so far. *)
Definition loop_body (results : list (gmap string PyVal)) (rn : Z)
    : M (list (gmap string PyVal)) :=
  print (progress_line rn);;;
  do data <- fetch_one_roll (VInt rn);
  print_record data;;;
  ret (results ++ [data])%list.

(** The main script for given bounds; it leaves the list [results]. *)
Definition driver (start_roll end_roll : Z) : M (list (gmap string PyVal)) :=
  do results <- for_each loop_body (py_range start_roll (end_roll + 1)) [];
  save_summary_pdf results "bise_results_summary.pdf";;;
  ret results.

End Script.

Definition start_roll : Z := 123456.
Definition end_roll : Z := 123456.

(** The script as it stands, run from the start. *)
Definition main (env : Env) : result (list (gmap string PyVal)) * Trace :=
  driver env start_roll end_roll [].

(** ** What a trace shows *)

(** The token fetches of a trace: its GET requests. *)
Definition token_fetches (tr : Trace) : list Request :=
  omap (fun ev => match ev with EvRequest (Get u t) => Some (Get u t) | _ => None end) tr.

(** The form submissions of a trace: its POST requests. *)
Definition submissions (tr : Trace) : list Request :=
  omap (fun ev => match ev with
                  | EvRequest (Post u d h t) => Some (Post u d h t)
                  | _ => None
                  end) tr.

Definition printed_lines (tr : Trace) : list string :=
  omap (fun ev => match ev with EvPrint l => Some l | _ => None end) tr.

Definition printed_records (tr : Trace) : list (gmap string PyVal) :=
  omap (fun ev => match ev with EvPrintRecord d => Some d | _ => None end) tr.

(** The calls of the report writer's [doc.build]: file name and story. *)
Definition builds (tr : Trace) : list (string * list Flowable) :=
  omap (fun ev => match ev with EvBuild f _ s => Some (f, s) | _ => None end) tr.

(** ** The specification's view of a run *)

(** The lookup of [roll_no] started at [tr] gets its tokens, submits the form
    and reads the parsed answer [soup]; [tr'] is the trace after the
    submission. *)
Definition answered (env : Env) (roll_no : PyVal) (tr : Trace) (soup : Soup)
    (tr' : Trace) : Prop :=
  ∃ viewstate eventvalidation tr1 resp,
    get_tokens env tr = (Ok (viewstate, eventvalidation), tr1) ∧
    server env tr1 (Post BASE (payload viewstate eventvalidation roll_no) headers 20)
      = Ok resp ∧
    BeautifulSoup env (decode resp "utf-8") "lxml" = Ok soup ∧
    tr' = (tr1 ++ [EvRequest (Post BASE (payload viewstate eventvalidation roll_no)
                                 headers 20)])%list.

(** The error-message field of the answer is present and not empty. *)
Definition has_error (soup : Soup) (msg : string) : Prop :=
  ∃ err, select_one soup "#LblErr" = Some err ∧ get_text_strip err = msg ∧ msg ≠ "".

(** The error-message field of the answer is absent, or empty. *)
Definition no_error (soup : Soup) : Prop :=
  select_one soup "#LblErr" = None ∨
  ∃ err, select_one soup "#LblErr" = Some err ∧ get_text_strip err = "".

(** The text of the field [selector] of the answer, [dflt] when the field is
    absent. *)
Definition field (soup : Soup) (selector dflt : string) : string :=
  from_option get_text_strip dflt (select_one soup selector).

(** The driver as section 4.4 of the specification words it: for each roll
    number in turn, print the progress line, look the number up, print the
    record and keep it; [tr'] is the trace when the last one is done. *)
Inductive lookups_in_order (env : Env)
    : list Z → Trace → list (gmap string PyVal) → Trace → Prop :=
  | lookups_done tr :
      lookups_in_order env [] tr [] tr
  | lookups_next rn rns tr d tr1 ds tr2 :
      fetch_one_roll env (VInt rn) (tr ++ [EvPrint (progress_line rn)])%list = (Ok d, tr1) →
      lookups_in_order env rns (tr1 ++ [EvPrintRecord d])%list ds tr2 →
      lookups_in_order env (rn :: rns) tr (d :: ds) tr2.

(** The report stage of the driver on the accumulated records. *)
Definition report (env : Env) (results : list (gmap string PyVal))
    : M (list (gmap string PyVal)) :=
  bind (save_summary_pdf env results "bise_results_summary.pdf") (fun _ => ret results).

(** Section 7 of the specification on the first token fetch of a run, as it
    is stated there: when that fetch raises, the run ends with that exception
    and no call of the document writer. *)
Definition first_fetch_fatal (env : Env) (start_roll end_roll : Z) (tr : Trace) : Prop :=
  ∀ e tr1,
    get_tokens env (tr ++ [EvPrint (progress_line start_roll)])%list = (Raise e, tr1) →
    ∃ tr', driver env start_roll end_roll tr = (Raise e, tr') ∧ builds tr' = builds tr.

(** ** More views of a trace and of the environment *)

Definition request_url (rq : Request) : string :=
  match rq with Get u _ => u | Post u _ _ _ => u end.

Definition request_timeout (rq : Request) : Z :=
  match rq with Get _ t => t | Post _ _ _ t => t end.

(** All the requests of a trace, in order. *)
Definition requests (tr : Trace) : list Request :=
  omap (fun ev => match ev with EvRequest rq => Some rq | _ => None end) tr.

(** The value of the field [key] of a form or of a header list. *)
Definition form_field (data : list (string * string)) (key : string) : option string :=
  snd <$> List.find (fun kv => String.eqb (fst kv) key) data.

(** The roll-number text a request searches for, when it is a submission. *)
Definition search_text (rq : Request) : option string :=
  match rq with
  | Post _ data _ _ => form_field data "TxtSearchText"
  | Get _ _ => None
  end.

(** The roll-number texts searched for in a trace, in order. *)
Definition searches (tr : Trace) : list string := omap search_text (requests tr).

(** The site has no answer: whatever is asked, the call raises an instance
    of [Exception] (a timeout, a refused connection). *)
Definition unreachable (env : Env) : Prop :=
  ∀ tr rq, ∃ e, server env tr rq = Raise e ∧ is_Exception e = true.

(** The site and the parser fail with instances of [Exception] only: no
    request and no parse is cut by an interrupt or an exit. *)
Definition only_Exceptions (env : Env) : Prop :=
  (∀ tr rq e, server env tr rq = Raise e → is_Exception e = true) ∧
  (∀ markup features e, BeautifulSoup env markup features = Raise e →
                        is_Exception e = true).

(** The run goes through the whole range and reports: the lookups of all the
    roll numbers return, in order; there is one token fetch and at most one
    submission for each; the document writer is called once, on all the
    records. *)
Definition completes (env : Env) (start_roll end_roll : Z) (tr : Trace) : Prop :=
  ∃ recs tr1 ext,
    lookups_in_order env (py_range start_roll (end_roll + 1)) tr recs tr1 ∧
    driver env start_roll end_roll tr = report env recs tr1 ∧
    length recs = Z.to_nat (end_roll - start_roll + 1) ∧
    snd (driver env start_roll end_roll tr) = (tr ++ ext)%list ∧
    printed_records ext = recs ∧
    token_fetches ext = replicate (length recs) (Get BASE 20) ∧
    (length (submissions ext) ≤ length recs)%nat ∧
    builds ext = [("bise_results_summary.pdf", elements_of recs)].

(** The run is cut short: the lookups of the roll numbers [visited] return,
    the lookup of the next one, [rn], lets through an exception that is not an
    instance of [Exception], and the run ends there with that exception; the
    document writer is not called. *)
Definition cut_short (env : Env) (start_roll end_roll : Z) (tr : Trace) : Prop :=
  ∃ visited rn rest recs tr1 e ext,
    py_range start_roll (end_roll + 1) = (visited ++ rn :: rest)%list ∧
    lookups_in_order env visited tr recs tr1 ∧
    fetch_one_roll env (VInt rn) (tr1 ++ [EvPrint (progress_line rn)])%list
      = (Raise e, (tr ++ ext)%list) ∧
    is_Exception e = false ∧
    driver env start_roll end_roll tr = (Raise e, (tr ++ ext)%list) ∧
    printed_records ext = recs ∧
    token_fetches ext = replicate (S (length visited)) (Get BASE 20) ∧
    builds ext = [].

(** The roll-number texts that the lookups of a list of roll numbers submit,
    read off the token fetches: a roll number is searched for exactly when the
    token fetch of its lookup returns, and the list ends with the first lookup
    that raises. *)
Inductive searched_in_order (env : Env) : list Z → Trace → list string → Prop :=
  | searched_done tr :
      searched_in_order env [] tr []
  | searched_skip rn rns tr e tr1 d tr2 texts :
      get_tokens env (tr ++ [EvPrint (progress_line rn)])%list = (Raise e, tr1) →
      fetch_one_roll env (VInt rn) (tr ++ [EvPrint (progress_line rn)])%list = (Ok d, tr2) →
      searched_in_order env rns (tr2 ++ [EvPrintRecord d])%list texts →
      searched_in_order env (rn :: rns) tr texts
  | searched_skip_stop rn rns tr e tr1 e' tr2 :
      get_tokens env (tr ++ [EvPrint (progress_line rn)])%list = (Raise e, tr1) →
      fetch_one_roll env (VInt rn) (tr ++ [EvPrint (progress_line rn)])%list
        = (Raise e', tr2) →
      searched_in_order env (rn :: rns) tr []
  | searched_sent rn rns tr tokens tr1 d tr2 texts :
      get_tokens env (tr ++ [EvPrint (progress_line rn)])%list = (Ok tokens, tr1) →
      fetch_one_roll env (VInt rn) (tr ++ [EvPrint (progress_line rn)])%list = (Ok d, tr2) →
      searched_in_order env rns (tr2 ++ [EvPrintRecord d])%list texts →
      searched_in_order env (rn :: rns) tr (str_of_int rn :: texts)
  | searched_sent_stop rn rns tr tokens tr1 e' tr2 :
      get_tokens env (tr ++ [EvPrint (progress_line rn)])%list = (Ok tokens, tr1) →
      fetch_one_roll env (VInt rn) (tr ++ [EvPrint (progress_line rn)])%list
        = (Raise e', tr2) →
      searched_in_order env (rn :: rns) tr [str_of_int rn].

(** The same environment, with every response declaring the charset [enc]. *)
Definition declaring (enc : string) (env : Env) : Env :=
  mkEnv (fun tr rq => match server env tr rq with
                      | Ok r => Ok (set_encoding enc r)
                      | Raise e => Raise e
                      end)
        (BeautifulSoup env)
        (doc_build env).

(** The closing line of the report writer for the file of the script. *)
Definition saved_line : string := "✅ PDF saved: bise_results_summary.pdf".

(** The run ends in the report writer: all the lookups of the range return,
    and the document writer decides the outcome.  If it does not raise, the run
    ends with all the records and the closing line is printed; if it raises,
    the run raises the same and the closing line is not printed. *)
Definition ends_in_writer (env : Env) (start_roll end_roll : Z) (tr : Trace) : Prop :=
  ∃ recs tr1 ext,
    lookups_in_order env (py_range start_roll (end_roll + 1)) tr recs tr1 ∧
    snd (driver env start_roll end_roll tr) = (tr ++ ext)%list ∧
    builds ext = [("bise_results_summary.pdf", elements_of recs)] ∧
    match doc_build env tr1 "bise_results_summary.pdf" (landscape A4)
            (elements_of recs) with
    | None =>
        fst (driver env start_roll end_roll tr) = Ok recs ∧
        saved_line ∈ printed_lines ext
    | Some x =>
        fst (driver env start_roll end_roll tr) = Raise x ∧
        saved_line ∉ printed_lines ext
    end.

(** ** Sample environments

    A toy site whose pages are named by their text, for running the script. *)
Module Sample.

Definition input (v : string) : Tag := mkTag {[ "value" := v ]} "".
Definition label (txt : string) : Tag := mkTag ∅ txt.

Definition token_page : Soup :=
  {[ "__VIEWSTATE" := input "VS1"; "__EVENTVALIDATION" := input "EV1" ]}.

Definition result_page : Soup :=
  {[ "LblName" := label "ALI KHAN"; "LblRollNo" := label "123456";
     "lblGazres" := label "PASS 850" ]}.

Definition error_page : Soup :=
  {[ "LblErr" := label "Roll No. not found"; "LblName" := label "ALI KHAN";
     "LblRollNo" := label "123456"; "lblGazres" := label "PASS 850" ]}.

Definition blank_page : Soup := ∅.

Definition lxml (markup features : string) : result Soup :=
  if String.eqb markup "tokens" then Ok token_page
  else if String.eqb markup "result" then Ok result_page
  else if String.eqb markup "error" then Ok error_page
  else if String.eqb markup "blank" then Ok blank_page
  else if String.eqb markup "half" then Ok {[ "__VIEWSTATE" := input "VS1" ]}
  else Raise (mkExc "ParserRejectedMarkup" "cannot parse the page").

Definition page (body : string) : result Response :=
  Ok (mkResponse "ISO-8859-1" (fun _ => body)).

Definition timed_out : PyExc := mkExc "ReadTimeout" "Read timed out. (read timeout=20)".

(** A site that answers every GET with [get_reply] and every POST with
    [post_reply]; the document writer always succeeds. *)
Definition site (get_reply post_reply : result Response) : Env :=
  mkEnv (fun _ rq => match rq with Get _ _ => get_reply | Post _ _ _ _ => post_reply end)
        lxml
        (fun _ _ _ _ => None).

Definition offline : Env := site (Raise timed_out) (Raise timed_out).

Definition valueless_page : Soup :=
  {[ "__VIEWSTATE" := label ""; "__EVENTVALIDATION" := input "EV1" ]}.

Definition empty_roll_page : Soup :=
  {[ "LblName" := label "ALI KHAN"; "LblRollNo" := label "";
     "lblGazres" := label "PASS 850" ]}.

(** A parser that also knows the two pages above. *)
Definition lxml' (markup features : string) : result Soup :=
  if String.eqb markup "valueless" then Ok valueless_page
  else if String.eqb markup "emptyroll" then Ok empty_roll_page
  else lxml markup features.

Definition disk_full : PyExc := mkExc "OSError" "[Errno 28] No space left on device".

(** The user presses Ctrl-C while a request is under way. *)
Definition interrupted : PyExc := mkExc "KeyboardInterrupt" "".

(** A site served by [lxml'], whose document writer succeeds or not. *)
Definition site' (get_reply post_reply : result Response) (writer : option PyExc) : Env :=
  mkEnv (fun _ rq => match rq with Get _ _ => get_reply | Post _ _ _ _ => post_reply end)
        lxml'
        (fun _ _ _ _ => writer).

End Sample.


(** * Properties of the script *)

(** ** The token fetcher *)

(** The outcome of [get_tokens], stage by stage; the trace grows by the one
    GET whatever happens. *)
Lemma get_tokens_run env tr :
  get_tokens env tr =
    (match server env tr (Get BASE 20) with
     | Raise e => Raise e
     | Ok r =>
         match BeautifulSoup env (decode r "utf-8") "lxml" with
         | Raise e => Raise e
         | Ok soup =>
             match subscript (select_one soup "#__VIEWSTATE") "value" with
             | Raise e => Raise e
             | Ok viewstate =>
                 match subscript (select_one soup "#__EVENTVALIDATION") "value" with
                 | Raise e => Raise e
                 | Ok eventvalidation => Ok (viewstate, eventvalidation)
                 end
             end
         end
     end,
     (tr ++ [EvRequest (Get BASE 20)])%list).
Proof.
  unfold get_tokens, session_get, send, bind, lift, ret, text, set_encoding.
  cbn [encoding decode].
  destruct (server env tr (Get BASE 20)) as [r|e]; [|reflexivity].
  cbn [encoding decode].
  destruct (BeautifulSoup env (decode r "utf-8") "lxml") as [soup|e]; [|reflexivity].
  destruct (subscript (select_one soup "#__VIEWSTATE") "value") as [vs|e]; [|reflexivity].
  destruct (subscript (select_one soup "#__EVENTVALIDATION") "value"); reflexivity.
Qed.

Lemma subscript_None key : ∃ e, subscript None key = Raise e.
Proof. eexists; reflexivity. Qed.

Lemma subscript_Ok x key v :
  subscript x key = Ok v → ∃ tag, x = Some tag ∧ attrs tag !! key = Some v.
Proof.
  destruct x as [tag|]; simpl; [|discriminate].
  destruct (attrs tag !! key) as [w|] eqn:E; [|discriminate].
  intros [= <-]. eauto.
Qed.

(** C7: [get_tokens] sends exactly one GET and nothing else (no retry); it
    raises the exception of the network call when that call fails, the
    parser's exception when the page cannot be parsed, and an exception when
    either of the two hidden fields is absent from the page; and when it does
    return, the pair it returns is the two [value] attributes found in the
    page (no fallback value). *)
Theorem get_tokens_propagates env tr :
  snd (get_tokens env tr) = (tr ++ [EvRequest (Get BASE 20)])%list ∧
  (∀ e, server env tr (Get BASE 20) = Raise e →
        fst (get_tokens env tr) = Raise e) ∧
  (∀ r e, server env tr (Get BASE 20) = Ok r →
          BeautifulSoup env (decode r "utf-8") "lxml" = Raise e →
          fst (get_tokens env tr) = Raise e) ∧
  (∀ r soup, server env tr (Get BASE 20) = Ok r →
             BeautifulSoup env (decode r "utf-8") "lxml" = Ok soup →
             select_one soup "#__VIEWSTATE" = None ∨
             select_one soup "#__EVENTVALIDATION" = None →
             ∃ e, fst (get_tokens env tr) = Raise e) ∧
  (∀ viewstate eventvalidation,
     fst (get_tokens env tr) = Ok (viewstate, eventvalidation) →
     ∃ r soup t1 t2,
       server env tr (Get BASE 20) = Ok r ∧
       BeautifulSoup env (decode r "utf-8") "lxml" = Ok soup ∧
       select_one soup "#__VIEWSTATE" = Some t1 ∧
       attrs t1 !! "value" = Some viewstate ∧
       select_one soup "#__EVENTVALIDATION" = Some t2 ∧
       attrs t2 !! "value" = Some eventvalidation).
Proof.
  rewrite get_tokens_run; cbn [fst snd].
  split; [reflexivity|].
  split; [intros e ->; reflexivity|].
  split; [intros r e -> ->; reflexivity|].
  split.
  - intros r soup -> -> [H|H].
    + rewrite H. destruct (subscript_None "value") as [e ->]. eauto.
    + rewrite H. destruct (subscript_None "value") as [e ->].
      destruct (subscript (select_one soup "#__VIEWSTATE") "value"); eauto.
  - intros vs ev.
    destruct (server env tr (Get BASE 20)) as [r|] eqn:Er; [|discriminate].
    destruct (BeautifulSoup env (decode r "utf-8") "lxml") as [soup|] eqn:Eb;
      [|discriminate].
    destruct (subscript (select_one soup "#__VIEWSTATE") "value") as [vs'|] eqn:E1;
      [|discriminate].
    destruct (subscript (select_one soup "#__EVENTVALIDATION") "value") as [ev'|] eqn:E2;
      [|discriminate].
    intros [= <- <-].
    apply subscript_Ok in E1 as (t1 & Hs1 & Ha1).
    apply subscript_Ok in E2 as (t2 & Hs2 & Ha2).
    exists r, soup, t1, t2. repeat split; assumption.
Qed.

Lemma get_tokens_propagates_witness :
  fst (get_tokens Sample.offline []) = Raise Sample.timed_out ∧
  fst (get_tokens (Sample.site (Sample.page "junk") (Sample.page "result")) [])
    = Raise (mkExc "ParserRejectedMarkup" "cannot parse the page") ∧
  (∃ e, fst (get_tokens (Sample.site (Sample.page "half") (Sample.page "result")) [])
          = Raise e) ∧
  (∃ r soup t1 t2,
     server (Sample.site (Sample.page "tokens") (Sample.page "result")) [] (Get BASE 20)
       = Ok r ∧
     Sample.lxml (decode r "utf-8") "lxml" = Ok soup ∧
     select_one soup "#__VIEWSTATE" = Some t1 ∧ attrs t1 !! "value" = Some "VS1" ∧
     select_one soup "#__EVENTVALIDATION" = Some t2 ∧ attrs t2 !! "value" = Some "EV1").
Proof.
  split; [|split; [|split]].
  - destruct (get_tokens_propagates Sample.offline []) as (_ & H & _).
    apply H. reflexivity.
  - destruct (get_tokens_propagates
                (Sample.site (Sample.page "junk") (Sample.page "result")) [])
      as (_ & _ & H & _).
    eapply H; reflexivity.
  - destruct (get_tokens_propagates
                (Sample.site (Sample.page "half") (Sample.page "result")) [])
      as (_ & _ & _ & H & _).
    eapply H; [reflexivity | reflexivity | right; vm_compute; reflexivity].
  - destruct (get_tokens_propagates
                (Sample.site (Sample.page "tokens") (Sample.page "result")) [])
      as (_ & _ & _ & _ & H).
    apply H. vm_compute. reflexivity.
Defined.

(** ** One lookup *)

(** The body of the [try] block, stage by stage. *)
Lemma fetch_body_run env roll_no tr :
  fetch_body env roll_no tr =
    match get_tokens env tr with
    | (Raise e, tr1) => (Raise e, tr1)
    | (Ok (viewstate, eventvalidation), tr1) =>
        (match server env tr1
                 (Post BASE (payload viewstate eventvalidation roll_no) headers 20) with
         | Raise e => Raise e
         | Ok resp =>
             match BeautifulSoup env (decode resp "utf-8") "lxml" with
             | Raise e => Raise e
             | Ok soup => Ok (read_result soup roll_no)
             end
         end,
         (tr1 ++ [EvRequest (Post BASE (payload viewstate eventvalidation roll_no)
                                  headers 20)])%list)
    end.
Proof.
  unfold fetch_body, bind at 1.
  destruct (get_tokens env tr) as [[[vs ev]|e] tr1]; [|reflexivity].
  unfold session_post, send, bind, lift, ret, text, set_encoding.
  destruct (server env tr1 _) as [resp|e]; [|reflexivity].
  cbn [encoding decode].
  destruct (BeautifulSoup env (decode resp "utf-8") "lxml"); reflexivity.
Qed.

(** An instance of [Exception] raised by the body is caught and turned into
    the error record. *)
Lemma fetch_caught env roll_no tr e tr1 :
  fetch_body env roll_no tr = (Raise e, tr1) →
  is_Exception e = true →
  fetch_one_roll env roll_no tr
    = (Ok (mk_record roll_no (VStr "") (VStr ("Error: " ++ exc_str e))), tr1).
Proof. intros H He. unfold fetch_one_roll, try_except. rewrite H, He. reflexivity. Qed.

(** Anything else raised by the body goes through the handler. *)
Lemma fetch_passed env roll_no tr e tr1 :
  fetch_body env roll_no tr = (Raise e, tr1) →
  is_Exception e = false →
  fetch_one_roll env roll_no tr = (Raise e, tr1).
Proof. intros H He. unfold fetch_one_roll, try_except. rewrite H, He. reflexivity. Qed.

(** A body that returns makes the lookup return the same. *)
Lemma fetch_returned env roll_no tr d tr1 :
  fetch_body env roll_no tr = (Ok d, tr1) →
  fetch_one_roll env roll_no tr = (Ok d, tr1).
Proof. intros H. unfold fetch_one_roll, try_except. rewrite H. reflexivity. Qed.

(** A lookup returns a record, or lets through an exception of its body that
    is not an instance of [Exception]. *)
Lemma fetch_outcome env roll_no tr :
  (∃ d tr', fetch_one_roll env roll_no tr = (Ok d, tr')) ∨
  (∃ e tr', fetch_one_roll env roll_no tr = (Raise e, tr') ∧
            is_Exception e = false ∧
            fetch_body env roll_no tr = (Raise e, tr')).
Proof.
  destruct (fetch_body env roll_no tr) as [[d|e] tr1] eqn:E.
  - left. exists d, tr1. by apply fetch_returned.
  - destruct (is_Exception e) eqn:He.
    + left. eexists _, tr1. by apply fetch_caught.
    + right. exists e, tr1. split; [by apply fetch_passed | done].
Qed.

(** What a lookup raises is not an instance of [Exception], and comes from
    its body. *)
Lemma fetch_raised env roll_no tr e tr' :
  fetch_one_roll env roll_no tr = (Raise e, tr') →
  is_Exception e = false ∧ fetch_body env roll_no tr = (Raise e, tr').
Proof.
  unfold fetch_one_roll, try_except.
  destruct (fetch_body env roll_no tr) as [[d|e0] tr1]; [discriminate|].
  destruct (is_Exception e0) eqn:He; [discriminate|].
  by intros [= <- <-].
Qed.

(** A lookup that reaches the parsed answer returns what it reads there. *)
Lemma fetch_answered env roll_no tr soup tr' :
  answered env roll_no tr soup tr' →
  fetch_one_roll env roll_no tr = (Ok (read_result soup roll_no), tr').
Proof.
  intros (vs & ev & tr1 & resp & Ht & Hp & Hs & ->).
  apply fetch_returned. rewrite fetch_body_run, Ht, Hp, Hs. reflexivity.
Qed.

(** The three fields of a dict literal. *)
Lemma mk_record_fields roll name res :
  mk_record roll name res !! "Roll No" = Some roll ∧
  mk_record roll name res !! "Name" = Some name ∧
  mk_record roll name res !! "Result" = Some res.
Proof. unfold mk_record. by simplify_map_eq. Qed.

Lemma mk_record_dom roll name res :
  dom (mk_record roll name res) = ({[ "Roll No"; "Name"; "Result" ]} : gset string).
Proof. unfold mk_record. rewrite !dom_insert_L, dom_empty_L. set_solver. Qed.

Lemma str_truthy_spec s : str_truthy s = true ↔ s ≠ "".
Proof.
  unfold str_truthy. destruct (String.eqb_spec s ""); simpl; split; congruence.
Qed.

(** What [read_result] makes of an answer with an error message, and of one
    without. *)
Lemma read_result_error soup roll_no msg :
  has_error soup msg →
  read_result soup roll_no = mk_record roll_no (VStr "") (VStr msg).
Proof.
  intros (err & Hsel & <- & Hne). unfold read_result. rewrite Hsel.
  apply str_truthy_spec in Hne. rewrite Hne. reflexivity.
Qed.

Lemma read_result_success soup roll_no :
  no_error soup →
  read_result soup roll_no
    = mk_record (VStr (field soup "#LblRollNo" (py_str roll_no)))
                (VStr (field soup "#LblName" ""))
                (VStr (field soup "#lblGazres" "")).
Proof.
  assert (Hf : ∀ sel dflt,
             match select_one soup sel with
             | Some t => get_text_strip t
             | None => dflt
             end = field soup sel dflt).
  { intros sel dflt. unfold field. by destruct (select_one soup sel). }
  intros [Hnone | (err & Hsel & Hempty)]; unfold read_result.
  - rewrite Hnone, !Hf. reflexivity.
  - rewrite Hsel, Hempty, !Hf. reflexivity.
Qed.

(** Every answer has an error message or has none. *)
Lemma error_or_not soup : (∃ msg, has_error soup msg) ∨ no_error soup.
Proof.
  unfold has_error, no_error.
  destruct (select_one soup "#LblErr") as [err|]; [|by right; left].
  destruct (decide (get_text_strip err = "")) as [E|E].
  - right. right. by exists err.
  - left. exists (get_text_strip err), err. done.
Qed.

Lemma read_result_dom soup roll_no :
  dom (read_result soup roll_no) = ({[ "Roll No"; "Name"; "Result" ]} : gset string).
Proof.
  destruct (error_or_not soup) as [[msg H]|H].
  - rewrite (read_result_error _ _ _ H). apply mk_record_dom.
  - rewrite (read_result_success _ _ H). apply mk_record_dom.
Qed.

(** A body that returns has reached a parsed answer. *)
Lemma fetch_body_Ok env roll_no tr d tr' :
  fetch_body env roll_no tr = (Ok d, tr') →
  ∃ soup, answered env roll_no tr soup tr' ∧ d = read_result soup roll_no.
Proof.
  rewrite fetch_body_run.
  destruct (get_tokens env tr) as [[[vs ev]|e] tr1] eqn:Ht; [|discriminate].
  destruct (server env tr1 _) as [resp|e] eqn:Hp; [|discriminate].
  destruct (BeautifulSoup env (decode resp "utf-8") "lxml") as [soup|e] eqn:Hs;
    [|discriminate].
  intros [= <- <-]. exists soup. split; [|reflexivity].
  exists vs, ev, tr1, resp. repeat split; assumption.
Qed.

(** A record that a lookup returns was read from an answer, or made by the
    handler from an instance of [Exception]. *)
Lemma fetch_Ok_cases env roll_no tr d tr' :
  fetch_one_roll env roll_no tr = (Ok d, tr') →
  (∃ soup, answered env roll_no tr soup tr' ∧ d = read_result soup roll_no) ∨
  (∃ e, fetch_body env roll_no tr = (Raise e, tr') ∧ is_Exception e = true ∧
        d = mk_record roll_no (VStr "") (VStr ("Error: " ++ exc_str e))).
Proof.
  unfold fetch_one_roll, try_except.
  destruct (fetch_body env roll_no tr) as [[d0|e] tr1] eqn:E.
  - intros [= <- <-]. left. by apply fetch_body_Ok.
  - destruct (is_Exception e) eqn:He; [|discriminate].
    intros [= <- <-]. right. by exists e.
Qed.

(** Where an exception of the body comes from: a request, a parse, or a
    subscript of the token page. *)
Lemma fetch_body_raise_origin env roll_no tr e tr' :
  fetch_body env roll_no tr = (Raise e, tr') →
  (∃ tr0 rq, server env tr0 rq = Raise e) ∨
  (∃ markup features, BeautifulSoup env markup features = Raise e) ∨
  exc_class e = "TypeError" ∨ exc_class e = "KeyError".
Proof.
  rewrite fetch_body_run, get_tokens_run.
  destruct (server env tr (Get BASE 20)) as [r|e0] eqn:Hr;
    [|intros [= <- _]; left; eauto].
  destruct (BeautifulSoup env (decode r "utf-8") "lxml") as [soup|e0] eqn:Hs;
    [|intros [= <- _]; right; left; eauto].
  assert (Hsub : ∀ x e0, subscript x "value" = Raise e0 →
                         exc_class e0 = "TypeError" ∨ exc_class e0 = "KeyError").
  { intros [t|] e0; unfold subscript; [|intros [= <-]; by left].
    destruct (attrs t !! "value"); [discriminate|]. intros [= <-]. by right. }
  destruct (subscript (select_one soup "#__VIEWSTATE") "value") as [vs|e0] eqn:E1;
    [|intros [= <- _]; right; right; by eapply Hsub].
  destruct (subscript (select_one soup "#__EVENTVALIDATION") "value") as [ev|e0] eqn:E2;
    [|intros [= <- _]; right; right; by eapply Hsub].
  destruct (server env _ (Post _ _ _ _)) as [resp|e0] eqn:Hp;
    [|intros [= <- _]; left; eauto].
  destruct (BeautifulSoup env (decode resp "utf-8") "lxml") as [soup'|e0] eqn:Hs';
    [discriminate|intros [= <- _]; right; left; eauto].
Qed.

(** With a site and a parser that raise instances of [Exception] only, every
    lookup returns a record. *)
Lemma fetch_total env roll_no tr :
  only_Exceptions env →
  ∃ d tr', fetch_one_roll env roll_no tr = (Ok d, tr').
Proof.
  intros [Hserver Hparser].
  destruct (fetch_outcome env roll_no tr) as [H | (e & tr' & _ & He & Hb)]; [exact H|].
  apply fetch_body_raise_origin in Hb
    as [(tr0 & rq & H) | [(m & f & H) | [H | H]]].
  - apply Hserver in H. congruence.
  - apply Hparser in H. congruence.
  - unfold is_Exception in He. rewrite H in He. discriminate He.
  - unfold is_Exception in He. rewrite H in He. discriminate He.
Qed.

(** The trace of one lookup, however it ends: the token fetch, and the
    submission when the tokens were found. *)
Lemma fetch_trace env roll_no tr r tr' :
  fetch_one_roll env roll_no tr = (r, tr') →
  ∃ ext, tr' = (tr ++ ext)%list ∧
         token_fetches ext = [Get BASE 20] ∧
         (length (submissions ext) ≤ 1)%nat ∧
         printed_lines ext = [] ∧ printed_records ext = [] ∧ builds ext = [].
Proof.
  assert (Hbody : ∃ r0 ext, fetch_body env roll_no tr = (r0, (tr ++ ext)%list) ∧
            token_fetches ext = [Get BASE 20] ∧
            (length (submissions ext) ≤ 1)%nat ∧
            printed_lines ext = [] ∧ printed_records ext = [] ∧ builds ext = []).
  { rewrite fetch_body_run.
    pose proof (get_tokens_run env tr) as Hg.
    destruct (get_tokens env tr) as [[[vs ev]|e] tr1]; injection Hg as _ ->.
    - eexists _, [_; _]. split; [by rewrite <- app_assoc |].
      repeat split; cbn; lia.
    - eexists _, [_]. split; [reflexivity |].
      repeat split; cbn; lia. }
  destruct Hbody as (r0 & ext & Hb & Hext).
  unfold fetch_one_roll, try_except. rewrite Hb.
  destruct r0 as [d|e]; [|destruct (is_Exception e)]; intros [= <- <-]; by exists ext.
Qed.

(** The sample sites raise instances of [Exception] only, when their two
    replies do. *)
Lemma sample_lxml_raises markup features e :
  Sample.lxml markup features = Raise e → is_Exception e = true.
Proof.
  unfold Sample.lxml.
  repeat (destruct (String.eqb markup _); [discriminate|]).
  by intros [= <-].
Qed.

Lemma sample_site_only_Exceptions get_reply post_reply :
  (∀ e, get_reply = Raise e → is_Exception e = true) →
  (∀ e, post_reply = Raise e → is_Exception e = true) →
  only_Exceptions (Sample.site get_reply post_reply).
Proof.
  intros Hg Hp. split.
  - intros tr [u t | u d h t] e; cbn; [apply Hg | apply Hp].
  - intros markup features e. apply sample_lxml_raises.
Qed.

Lemma sample_offline_only_Exceptions : only_Exceptions Sample.offline.
Proof. apply sample_site_only_Exceptions; by intros e [= <-]. Qed.

(** C1, as the code has it: [fetch_one_roll] returns one record, or lets
    through an exception of its [try] block that is not an instance of
    [Exception].  An instance of [Exception] raised in the block is caught and
    gives the record with the input roll number, an empty Name and "Error: "
    followed by the exception's text as Result, and nothing else; any other
    exception propagates.  The block raises when the token fetch, the form
    submission or the parsing of the answer raises.  With a site and a parser
    that raise instances of [Exception] only, the lookup always returns. *)
Theorem fetch_one_roll_contains_exceptions env roll_no tr :
  ((∃ d tr', fetch_one_roll env roll_no tr = (Ok d, tr')) ∨
   (∃ e tr', fetch_one_roll env roll_no tr = (Raise e, tr') ∧
             is_Exception e = false ∧
             fetch_body env roll_no tr = (Raise e, tr'))) ∧
  (∀ e tr1, fetch_body env roll_no tr = (Raise e, tr1) →
     is_Exception e = true →
     ∃ d, fetch_one_roll env roll_no tr = (Ok d, tr1) ∧
          d !! "Roll No" = Some roll_no ∧
          d !! "Name" = Some (VStr "") ∧
          d !! "Result" = Some (VStr ("Error: " ++ exc_str e)) ∧
          dom d = ({[ "Roll No"; "Name"; "Result" ]} : gset string)) ∧
  (∀ e tr1, fetch_body env roll_no tr = (Raise e, tr1) →
     is_Exception e = false →
     fetch_one_roll env roll_no tr = (Raise e, tr1)) ∧
  (∀ e tr1, get_tokens env tr = (Raise e, tr1) →
     fetch_body env roll_no tr = (Raise e, tr1)) ∧
  (∀ viewstate eventvalidation tr1 e,
     get_tokens env tr = (Ok (viewstate, eventvalidation), tr1) →
     server env tr1 (Post BASE (payload viewstate eventvalidation roll_no) headers 20)
       = Raise e →
     fetch_body env roll_no tr
       = (Raise e, (tr1 ++ [EvRequest (Post BASE (payload viewstate eventvalidation
                                                    roll_no) headers 20)])%list)) ∧
  (∀ viewstate eventvalidation tr1 resp e,
     get_tokens env tr = (Ok (viewstate, eventvalidation), tr1) →
     server env tr1 (Post BASE (payload viewstate eventvalidation roll_no) headers 20)
       = Ok resp →
     BeautifulSoup env (decode resp "utf-8") "lxml" = Raise e →
     fetch_body env roll_no tr
       = (Raise e, (tr1 ++ [EvRequest (Post BASE (payload viewstate eventvalidation
                                                    roll_no) headers 20)])%list)) ∧
  (only_Exceptions env → ∃ d tr', fetch_one_roll env roll_no tr = (Ok d, tr')).
Proof.
  split; [apply fetch_outcome|].
  split.
  { intros e tr1 H He. eexists. split; [by apply fetch_caught|].
    destruct (mk_record_fields roll_no (VStr "") (VStr ("Error: " ++ exc_str e)))
      as (Hr & Hn & Hres).
    split; [exact Hr|]. split; [exact Hn|]. split; [exact Hres | apply mk_record_dom]. }
  split; [intros e tr1; apply fetch_passed|].
  split; [|split; [|split]].
  - intros e tr1 H. by rewrite fetch_body_run, H.
  - intros vs ev tr1 e Ht Hp. by rewrite fetch_body_run, Ht, Hp.
  - intros vs ev tr1 resp e Ht Hp Hs. by rewrite fetch_body_run, Ht, Hp, Hs.
  - apply fetch_total.
Qed.

Lemma fetch_one_roll_contains_exceptions_witness :
  (∃ d, fetch_one_roll Sample.offline (VInt 123456) []
          = (Ok d, [EvRequest (Get BASE 20)]) ∧
        d !! "Roll No" = Some (VInt 123456) ∧
        d !! "Name" = Some (VStr "") ∧
        d !! "Result" = Some (VStr "Error: Read timed out. (read timeout=20)") ∧
        dom d = ({[ "Roll No"; "Name"; "Result" ]} : gset string)) ∧
  fetch_one_roll (Sample.site (Raise Sample.interrupted) (Sample.page "result"))
    (VInt 123456) []
    = (Raise Sample.interrupted, [EvRequest (Get BASE 20)]) ∧
  (∃ d tr', fetch_one_roll Sample.offline (VInt 123456) [] = (Ok d, tr')).
Proof.
  split; [|split].
  - destruct (fetch_one_roll_contains_exceptions Sample.offline (VInt 123456) [])
      as (_ & Hcaught & _ & Htok & _).
    apply (Hcaught Sample.timed_out); [|reflexivity].
    apply Htok. vm_compute. reflexivity.
  - destruct (fetch_one_roll_contains_exceptions
                (Sample.site (Raise Sample.interrupted) (Sample.page "result"))
                (VInt 123456) [])
      as (_ & _ & Hpassed & Htok & _).
    apply Hpassed; [|reflexivity].
    apply Htok. vm_compute. reflexivity.
  - destruct (fetch_one_roll_contains_exceptions Sample.offline (VInt 123456) [])
      as (_ & _ & _ & _ & _ & _ & Htotal).
    apply Htotal. apply sample_offline_only_Exceptions.
Defined.

(** C1 as stated does not hold: when the user interrupts the token fetch,
    [fetch_one_roll] raises [KeyboardInterrupt] and returns no record. *)
Lemma fetch_one_roll_can_raise :
  is_Exception Sample.interrupted = false ∧
  fetch_one_roll (Sample.site (Raise Sample.interrupted) (Sample.page "result"))
    (VInt 123456) []
    = (Raise Sample.interrupted, [EvRequest (Get BASE 20)]) ∧
  ¬ (∀ env roll_no tr, ∃ d tr', fetch_one_roll env roll_no tr = (Ok d, tr')).
Proof.
  split; [reflexivity|]. split; [by vm_compute|].
  intros H.
  destruct (H (Sample.site (Raise Sample.interrupted) (Sample.page "result"))
              (VInt 123456) []) as (d & tr' & Hd).
  vm_compute in Hd. discriminate Hd.
Qed.

(** The sample site answers a lookup of 123456 with the page it is set up
    to serve. *)
Lemma sample_answered body soup :
  Sample.lxml body "lxml" = Ok soup →
  answered (Sample.site (Sample.page "tokens") (Sample.page body)) (VInt 123456) [] soup
    [EvRequest (Get BASE 20);
     EvRequest (Post BASE (payload "VS1" "EV1" (VInt 123456)) headers 20)].
Proof.
  intros H.
  exists "VS1", "EV1", [EvRequest (Get BASE 20)], (mkResponse "ISO-8859-1" (fun _ => body)).
  split; [vm_compute; reflexivity|].
  split; [reflexivity|].
  split; [exact H | reflexivity].
Qed.

Lemma sample_error_page : has_error Sample.error_page "Roll No. not found".
Proof. exists (Sample.label "Roll No. not found"). by vm_compute. Qed.

Lemma sample_result_page : no_error Sample.result_page.
Proof. left. by vm_compute. Qed.

Lemma sample_blank_page : no_error Sample.blank_page.
Proof. left. by vm_compute. Qed.

(** C3: when the lookup reaches an answer whose error-message field is
    present and not empty, [fetch_one_roll] returns the record with empty Name
    and the error text as Result, whatever else the answer holds. *)
Theorem error_field_wins env roll_no tr soup tr' msg :
  answered env roll_no tr soup tr' →
  has_error soup msg →
  fetch_one_roll env roll_no tr = (Ok (mk_record roll_no (VStr "") (VStr msg)), tr') ∧
  mk_record roll_no (VStr "") (VStr msg) !! "Name" = Some (VStr "") ∧
  mk_record roll_no (VStr "") (VStr msg) !! "Result" = Some (VStr msg).
Proof.
  intros Ha He. split.
  - rewrite (fetch_answered _ _ _ _ _ Ha), (read_result_error _ _ _ He). reflexivity.
  - apply mk_record_fields.
Qed.

Lemma error_field_wins_witness :
  Sample.error_page !! "LblName" = Some (Sample.label "ALI KHAN") ∧
  fetch_one_roll (Sample.site (Sample.page "tokens") (Sample.page "error")) (VInt 123456) []
    = (Ok (mk_record (VInt 123456) (VStr "") (VStr "Roll No. not found")),
       [EvRequest (Get BASE 20);
        EvRequest (Post BASE (payload "VS1" "EV1" (VInt 123456)) headers 20)]).
Proof.
  split; [by vm_compute|].
  apply (error_field_wins _ _ _ Sample.error_page).
  - apply sample_answered. reflexivity.
  - apply sample_error_page.
Defined.

(** C4: when the lookup reaches an answer whose error-message field is absent
    or empty, [fetch_one_roll] returns the record made of the texts of the
    name, displayed-roll-number and result fields, and of nothing else; Roll
    No is the input roll number as text when the displayed-roll field is
    absent, and Name and Result are the empty text when their field is
    absent. *)
Theorem success_record env roll_no tr soup tr' :
  answered env roll_no tr soup tr' →
  no_error soup →
  ∃ d,
    fetch_one_roll env roll_no tr = (Ok d, tr') ∧
    d !! "Roll No" = Some (VStr (match select_one soup "#LblRollNo" with
                                 | Some t => get_text_strip t
                                 | None => py_str roll_no
                                 end)) ∧
    d !! "Name" = Some (VStr (match select_one soup "#LblName" with
                              | Some t => get_text_strip t
                              | None => ""
                              end)) ∧
    d !! "Result" = Some (VStr (match select_one soup "#lblGazres" with
                                | Some t => get_text_strip t
                                | None => ""
                                end)) ∧
    dom d = ({[ "Roll No"; "Name"; "Result" ]} : gset string).
Proof.
  intros Ha Hn. eexists. split.
  - rewrite (fetch_answered _ _ _ _ _ Ha), (read_result_success _ _ Hn). reflexivity.
  - split; [|split; [|split]]; [apply mk_record_fields .. | apply mk_record_dom].
Qed.

Lemma success_record_witness :
  (∃ d, fetch_one_roll (Sample.site (Sample.page "tokens") (Sample.page "result"))
          (VInt 123456) []
        = (Ok d, [EvRequest (Get BASE 20);
                  EvRequest (Post BASE (payload "VS1" "EV1" (VInt 123456)) headers 20)]) ∧
        d !! "Roll No" = Some (VStr "123456") ∧
        d !! "Name" = Some (VStr "ALI KHAN") ∧
        d !! "Result" = Some (VStr "PASS 850") ∧
        dom d = ({[ "Roll No"; "Name"; "Result" ]} : gset string)) ∧
  (∃ d, fetch_one_roll (Sample.site (Sample.page "tokens") (Sample.page "blank"))
          (VInt 123456) []
        = (Ok d, [EvRequest (Get BASE 20);
                  EvRequest (Post BASE (payload "VS1" "EV1" (VInt 123456)) headers 20)]) ∧
        d !! "Roll No" = Some (VStr (py_str (VInt 123456))) ∧
        d !! "Name" = Some (VStr "") ∧
        d !! "Result" = Some (VStr "") ∧
        dom d = ({[ "Roll No"; "Name"; "Result" ]} : gset string)).
Proof.
  split.
  - apply (success_record _ _ _ Sample.result_page).
    + apply sample_answered. reflexivity.
    + apply sample_result_page.
  - apply (success_record _ _ _ Sample.blank_page).
    + apply sample_answered. reflexivity.
    + apply sample_blank_page.
Defined.

(** C8: a record that [fetch_one_roll] returns has the keys "Roll No", "Name"
    and "Result" and no other, whichever way it was made: read from an answer
    (with or without an error message) or made by the handler. *)
Theorem record_keys env roll_no tr d tr' :
  fetch_one_roll env roll_no tr = (Ok d, tr') →
  dom d = ({[ "Roll No"; "Name"; "Result" ]} : gset string) ∧
  ((∃ soup, answered env roll_no tr soup tr' ∧ d = read_result soup roll_no) ∨
   (∃ e, fetch_body env roll_no tr = (Raise e, tr') ∧ is_Exception e = true ∧
         d = mk_record roll_no (VStr "") (VStr ("Error: " ++ exc_str e)))).
Proof.
  intros H. split; [|by apply fetch_Ok_cases].
  apply fetch_Ok_cases in H as [(soup & _ & ->) | (e & _ & _ & ->)].
  - apply read_result_dom.
  - apply mk_record_dom.
Qed.

Lemma record_keys_witness :
  dom (read_result Sample.error_page (VInt 123456))
    = ({[ "Roll No"; "Name"; "Result" ]} : gset string) ∧
  dom (read_result Sample.result_page (VInt 123456))
    = ({[ "Roll No"; "Name"; "Result" ]} : gset string) ∧
  dom (mk_record (VInt 123456) (VStr "")
         (VStr ("Error: " ++ exc_str Sample.timed_out)))
    = ({[ "Roll No"; "Name"; "Result" ]} : gset string).
Proof.
  split; [|split].
  - eapply (record_keys (Sample.site (Sample.page "tokens") (Sample.page "error"))
              (VInt 123456) []).
    apply fetch_answered, sample_answered. reflexivity.
  - eapply (record_keys (Sample.site (Sample.page "tokens") (Sample.page "result"))
              (VInt 123456) []).
    apply fetch_answered, sample_answered. reflexivity.
  - eapply (record_keys Sample.offline (VInt 123456) []).
    apply (fetch_caught _ _ _ Sample.timed_out); [by vm_compute | reflexivity].
Defined.

(** C9: on the exception branch and on the error-field branch the "Roll No"
    of the returned record is the input value itself, not its text and never
    the displayed roll number; only a record read from an answer without
    error message has a text there, the displayed one or the input as text. *)
Theorem roll_no_raw_outside_success env roll_no tr :
  (∀ e tr1, fetch_body env roll_no tr = (Raise e, tr1) →
     is_Exception e = true →
     ∃ d, fetch_one_roll env roll_no tr = (Ok d, tr1) ∧
          d !! "Roll No" = Some roll_no) ∧
  (∀ soup tr1 msg, answered env roll_no tr soup tr1 → has_error soup msg →
     ∃ d, fetch_one_roll env roll_no tr = (Ok d, tr1) ∧
          d !! "Roll No" = Some roll_no) ∧
  (∀ soup tr1, answered env roll_no tr soup tr1 → no_error soup →
     ∃ d, fetch_one_roll env roll_no tr = (Ok d, tr1) ∧
          d !! "Roll No" = Some (VStr (match select_one soup "#LblRollNo" with
                                       | Some t => get_text_strip t
                                       | None => py_str roll_no
                                       end))).
Proof.
  split; [|split].
  - intros e tr1 H He. eexists. split; [by apply fetch_caught|].
    apply mk_record_fields.
  - intros soup tr1 msg Ha He. eexists. split.
    + rewrite (fetch_answered _ _ _ _ _ Ha), (read_result_error _ _ _ He). reflexivity.
    + apply mk_record_fields.
  - intros soup tr1 Ha Hn. eexists. split.
    + rewrite (fetch_answered _ _ _ _ _ Ha), (read_result_success _ _ Hn). reflexivity.
    + apply mk_record_fields.
Qed.

Lemma roll_no_raw_outside_success_witness :
  (∃ d, fetch_one_roll Sample.offline (VInt 123456) [] = (Ok d, [EvRequest (Get BASE 20)]) ∧
        d !! "Roll No" = Some (VInt 123456)) ∧
  (∃ d, fetch_one_roll (Sample.site (Sample.page "tokens") (Sample.page "error"))
          (VInt 123456) []
        = (Ok d, [EvRequest (Get BASE 20);
                  EvRequest (Post BASE (payload "VS1" "EV1" (VInt 123456)) headers 20)]) ∧
        d !! "Roll No" = Some (VInt 123456)) ∧
  (∃ d, fetch_one_roll (Sample.site (Sample.page "tokens") (Sample.page "result"))
          (VInt 123456) []
        = (Ok d, [EvRequest (Get BASE 20);
                  EvRequest (Post BASE (payload "VS1" "EV1" (VInt 123456)) headers 20)]) ∧
        d !! "Roll No" = Some (VStr "123456")).
Proof.
  split; [|split].
  - destruct (roll_no_raw_outside_success Sample.offline (VInt 123456) []) as (H & _).
    apply (H Sample.timed_out); [vm_compute; reflexivity | reflexivity].
  - destruct (roll_no_raw_outside_success
                (Sample.site (Sample.page "tokens") (Sample.page "error"))
                (VInt 123456) []) as (_ & H & _).
    apply (H Sample.error_page _ "Roll No. not found").
    + apply sample_answered. reflexivity.
    + apply sample_error_page.
  - destruct (roll_no_raw_outside_success
                (Sample.site (Sample.page "tokens") (Sample.page "result"))
                (VInt 123456) []) as (_ & _ & H).
    apply (H Sample.result_page).
    + apply sample_answered. reflexivity.
    + apply sample_result_page.
Defined.

(** ** The report writer *)

(** The loop that fills [rows] leaves the header followed by one row per
    entry. *)
Lemma table_rows_map data_list :
  table_rows data_list = header_row :: map row_of data_list.
Proof.
  unfold table_rows.
  enough (H : ∀ acc, fold_left (fun rows entry => (rows ++ [row_of entry])%list)
                       data_list acc = (acc ++ map row_of data_list)%list)
    by apply (H [header_row]).
  induction data_list as [|entry rest IH]; intros acc; simpl.
  - by rewrite app_nil_r.
  - rewrite IH, <- app_assoc. reflexivity.
Qed.

(** The outcome of the report writer: [doc.build] is called once on the
    story; the closing line is printed when it did not raise. *)
Lemma save_summary_pdf_run env data_list filename tr :
  save_summary_pdf env data_list filename tr =
    match doc_build env tr filename (landscape A4) (elements_of data_list) with
    | None =>
        (Ok tt, (tr ++ [EvBuild filename (landscape A4) (elements_of data_list);
                        EvPrint ("✅ PDF saved: " ++ filename)])%list)
    | Some e =>
        (Raise e, (tr ++ [EvBuild filename (landscape A4) (elements_of data_list)])%list)
    end.
Proof.
  unfold save_summary_pdf, bind, build, print.
  destruct (doc_build env tr filename (landscape A4) (elements_of data_list));
    [reflexivity|].
  by rewrite <- app_assoc.
Qed.

(** C5: for every list of records the table that [save_summary_pdf] hands to
    the document has the row ["Roll No", "Name", "Final Result"] first, then
    one row per record in the order of the list, each made of the record's
    "Roll No", "Name" and "Result" (empty text for a missing key): records
    plus one rows in all. *)
Theorem table_header_and_rows env data_list filename tr :
  let rows :=
    [VStr "Roll No"; VStr "Name"; VStr "Final Result"]
    :: map (fun entry => [ default (VStr "") (entry !! "Roll No");
                           default (VStr "") (entry !! "Name");
                           default (VStr "") (entry !! "Result") ]) data_list in
  table_rows data_list = rows ∧
  length (table_rows data_list) = S (length data_list) ∧
  ∃ r ext,
    save_summary_pdf env data_list filename tr
      = (r, (tr ++ EvBuild filename (landscape A4)
                     [ Paragraph "BISE Sargodha Exam Results (Summary)" "Title";
                       Spacer 1 20;
                       Table rows [100; 180; 250] table_style ] :: ext)%list) ∧
    builds ext = [].
Proof.
  intros rows.
  assert (Hrows : table_rows data_list = rows) by apply table_rows_map.
  split; [exact Hrows|].
  split.
  { rewrite Hrows. unfold rows. cbn [length]. by rewrite length_map. }
  rewrite save_summary_pdf_run. unfold elements_of. rewrite Hrows.
  destruct (doc_build env tr filename _ _); eexists _, _; split; reflexivity.
Qed.

(** ** The driver *)

(** One turn of the loop: the progress line, the lookup, the record printed
    and appended. *)
Lemma loop_body_run env results rn tr :
  loop_body env results rn tr =
    match fetch_one_roll env (VInt rn) (tr ++ [EvPrint (progress_line rn)])%list with
    | (Ok d, tr1) => (Ok (results ++ [d])%list, (tr1 ++ [EvPrintRecord d])%list)
    | (Raise e, tr1) => (Raise e, tr1)
    end.
Proof.
  unfold loop_body, bind, print, print_record, ret.
  destruct (fetch_one_roll env (VInt rn) _) as [[d|e] tr1]; reflexivity.
Qed.

(** The loop, one turn at a time. *)
Lemma for_each_cons env rn rns acc tr :
  for_each (loop_body env) (rn :: rns) acc tr =
    match fetch_one_roll env (VInt rn) (tr ++ [EvPrint (progress_line rn)])%list with
    | (Ok d, tr1) =>
        for_each (loop_body env) rns (acc ++ [d])%list (tr1 ++ [EvPrintRecord d])%list
    | (Raise e, tr1) => (Raise e, tr1)
    end.
Proof.
  cbn [for_each]. unfold bind. rewrite loop_body_run.
  by destruct (fetch_one_roll env (VInt rn) _) as [[d|e] tr1].
Qed.

(** The loop does the lookups in order, up to the end of the list or to the
    first lookup that raises. *)
Lemma for_each_run env rns :
  ∀ acc tr,
    (∃ recs tr',
       lookups_in_order env rns tr recs tr' ∧
       for_each (loop_body env) rns acc tr = (Ok (acc ++ recs)%list, tr')) ∨
    (∃ visited rn rest recs tr1 e tr',
       rns = (visited ++ rn :: rest)%list ∧
       lookups_in_order env visited tr recs tr1 ∧
       fetch_one_roll env (VInt rn) (tr1 ++ [EvPrint (progress_line rn)])%list
         = (Raise e, tr') ∧
       is_Exception e = false ∧
       for_each (loop_body env) rns acc tr = (Raise e, tr')).
Proof.
  induction rns as [|rn rns IH]; intros acc tr.
  - left. exists [], tr. split; [constructor|]. by rewrite app_nil_r.
  - rewrite for_each_cons.
    destruct (fetch_one_roll env (VInt rn) (tr ++ [EvPrint (progress_line rn)])%list)
      as [[d|e] tr1] eqn:Hf.
    + destruct (IH (acc ++ [d])%list (tr1 ++ [EvPrintRecord d])%list)
        as [(recs & tr2 & Hl & ->)
           | (visited & rn' & rest & recs & tr1' & e & tr' & -> & Hl & Hf' & He & ->)].
      * left. exists (d :: recs), tr2. split; [by econstructor|].
        by rewrite <- app_assoc.
      * right. exists (rn :: visited), rn', rest, (d :: recs), tr1', e, tr'.
        split; [reflexivity|]. split; [by econstructor|]. done.
    + right. exists [], rn, rns, [], tr, e, tr1.
      split; [reflexivity|]. split; [constructor|]. split; [exact Hf|].
      split; [|reflexivity]. by apply fetch_raised in Hf as [He _].
Qed.

(** With a site and a parser that raise instances of [Exception] only, the
    loop does all the lookups. *)
Lemma for_each_lookups env rns :
  only_Exceptions env →
  ∀ acc tr, ∃ recs tr',
    lookups_in_order env rns tr recs tr' ∧
    for_each (loop_body env) rns acc tr = (Ok (acc ++ recs)%list, tr').
Proof.
  intros Honly. induction rns as [|rn rns IH]; intros acc tr.
  - exists [], tr. split; [constructor|]. by rewrite app_nil_r.
  - destruct (fetch_total env (VInt rn) (tr ++ [EvPrint (progress_line rn)])%list Honly)
      as (d & tr1 & Hf).
    destruct (IH (acc ++ [d])%list (tr1 ++ [EvPrintRecord d])%list)
      as (recs & tr2 & Hl & Hrun).
    exists (d :: recs), tr2. split; [by econstructor|].
    rewrite for_each_cons, Hf, Hrun. by rewrite <- app_assoc.
Qed.

(** What the lookups leave in the trace. *)
Lemma lookups_trace env rns tr recs tr' :
  lookups_in_order env rns tr recs tr' →
  length recs = length rns ∧
  ∃ ext, tr' = (tr ++ ext)%list ∧
         printed_lines ext = map progress_line rns ∧
         printed_records ext = recs ∧
         token_fetches ext = replicate (length rns) (Get BASE 20) ∧
         (length (submissions ext) ≤ length rns)%nat ∧
         builds ext = [].
Proof.
  induction 1 as [tr | rn rns tr d tr1 ds tr2 Hf _ (Hlen & ext2 & -> & Hl & Hr & Ht & Hs & Hb)].
  - split; [reflexivity|]. exists []. rewrite app_nil_r. repeat split; cbn; lia.
  - split; [cbn; lia|].
    apply fetch_trace in Hf as (ext1 & -> & Ht1 & Hs1 & Hl1 & Hr1 & Hb1).
    exists ([EvPrint (progress_line rn)] ++ ext1 ++ [EvPrintRecord d] ++ ext2)%list.
    split; [by rewrite <- !app_assoc|].
    unfold printed_lines, printed_records, token_fetches, submissions, builds in *.
    rewrite !omap_app.
    rewrite Hl, Hr, Ht, Hb, Ht1, Hl1, Hr1, Hb1.
    repeat split; try reflexivity.
    rewrite !length_app. cbn. lia.
Qed.

(** The driver is the loop over the range, then the report on what it
    leaves. *)
Lemma driver_unfold env start_roll end_roll tr :
  driver env start_roll end_roll tr =
    match for_each (loop_body env) (py_range start_roll (end_roll + 1)) [] tr with
    | (Ok results, tr1) => report env results tr1
    | (Raise e, tr1) => (Raise e, tr1)
    end.
Proof.
  unfold driver, report, bind at 1.
  by destruct (for_each (loop_body env) _ [] tr) as [[results|e] tr1].
Qed.

(** The driver, when all the lookups return. *)
Lemma driver_run env start_roll end_roll tr recs tr1 :
  for_each (loop_body env) (py_range start_roll (end_roll + 1)) [] tr = (Ok recs, tr1) →
  driver env start_roll end_roll tr = report env recs tr1.
Proof. intros H. by rewrite driver_unfold, H. Qed.

(** The report stage calls the writer once, on all the records. *)
Lemma report_run env results tr :
  report env results tr =
    match doc_build env tr "bise_results_summary.pdf" (landscape A4)
            (elements_of results) with
    | None =>
        (Ok results,
         (tr ++ [EvBuild "bise_results_summary.pdf" (landscape A4) (elements_of results);
                 EvPrint "✅ PDF saved: bise_results_summary.pdf"])%list)
    | Some e =>
        (Raise e,
         (tr ++ [EvBuild "bise_results_summary.pdf" (landscape A4)
                   (elements_of results)])%list)
    end.
Proof.
  unfold report, bind. rewrite save_summary_pdf_run.
  destruct (doc_build env tr _ _ _); reflexivity.
Qed.

Lemma report_trace env results tr :
  ∃ ext, snd (report env results tr) = (tr ++ ext)%list ∧
         token_fetches ext = [] ∧ submissions ext = [] ∧ printed_records ext = [] ∧
         builds ext = [("bise_results_summary.pdf", elements_of results)].
Proof.
  rewrite report_run.
  destruct (doc_build env tr _ _ _); eexists; (split; [reflexivity|]); by cbn.
Qed.

(** The roll numbers of the loop: the [i]-th is [start_roll + i], up to
    [end_roll]. *)
Lemma py_range_lookup start_roll end_roll (i : nat) z :
  py_range start_roll (end_roll + 1) !! i = Some z ↔
  z = start_roll + Z.of_nat i ∧ start_roll + Z.of_nat i ≤ end_roll.
Proof. unfold py_range. rewrite lookup_seqZ. lia. Qed.

Lemma py_range_length start_roll end_roll :
  length (py_range start_roll (end_roll + 1)) = Z.to_nat (end_roll - start_roll + 1).
Proof. unfold py_range. rewrite length_seqZ. f_equal. lia. Qed.

Lemma py_range_cons start_roll end_roll :
  start_roll ≤ end_roll →
  py_range start_roll (end_roll + 1) = start_roll :: py_range (start_roll + 1) (end_roll + 1).
Proof.
  intros H. unfold py_range. rewrite seqZ_cons by lia. do 2 f_equal; lia.
Qed.

Lemma py_range_empty start_roll end_roll :
  end_roll < start_roll → py_range start_roll (end_roll + 1) = [].
Proof. intros H. unfold py_range. apply seqZ_nil. lia. Qed.

Lemma lookups_single env rn tr recs tr' :
  lookups_in_order env [rn] tr recs tr' →
  ∃ d tr1,
    fetch_one_roll env (VInt rn) (tr ++ [EvPrint (progress_line rn)])%list = (Ok d, tr1) ∧
    recs = [d] ∧ tr' = (tr1 ++ [EvPrintRecord d])%list.
Proof.
  intros H. inversion H as [|? ? ? d tr1 ds tr2 Hf Hrest]; subst.
  inversion Hrest; subst. by exists d, tr1.
Qed.

(** A run either goes through the whole range and reports, or is cut short by
    the first lookup that raises. *)
Lemma driver_outcome env start_roll end_roll tr :
  completes env start_roll end_roll tr ∨ cut_short env start_roll end_roll tr.
Proof.
  destruct (for_each_run env (py_range start_roll (end_roll + 1)) [] tr)
    as [(recs & tr1 & Hl & Hrun)
       | (visited & rn & rest & recs & tr1 & e & tr' & Hrange & Hl & Hf & He & Hrun)].
  - left. cbn [app] in Hrun. pose proof (driver_run _ _ _ _ _ _ Hrun) as Hd.
    destruct (lookups_trace _ _ _ _ _ Hl) as (Hlen & ext1 & -> & _ & Hr & Ht & Hs & Hb).
    destruct (report_trace env recs (tr ++ ext1)%list)
      as (ext2 & Htr & Ht2 & Hs2 & Hr2 & Hb2).
    exists recs, (tr ++ ext1)%list, (ext1 ++ ext2)%list.
    split; [exact Hl|]. split; [exact Hd|].
    split; [by rewrite Hlen, py_range_length|].
    split; [by rewrite Hd, Htr, <- app_assoc|].
    unfold printed_records, token_fetches, submissions, builds in *.
    rewrite !omap_app, Hr, Ht, Hb, Ht2, Hs2, Hr2, Hb2, !app_nil_r, Hlen.
    repeat split; done.
  - right.
    destruct (lookups_trace _ _ _ _ _ Hl) as (Hlen & ext1 & -> & _ & Hr & Ht & _ & Hb).
    pose proof Hf as Hf'.
    apply fetch_trace in Hf' as (ext2 & -> & Ht2 & _ & _ & Hr2 & Hb2).
    exists visited, rn, rest, recs, (tr ++ ext1)%list, e,
      (ext1 ++ [EvPrint (progress_line rn)] ++ ext2)%list.
    rewrite !app_assoc. split; [exact Hrange|]. split; [exact Hl|].
    split; [exact Hf|]. split; [exact He|].
    split; [by rewrite driver_unfold, Hrun|].
    unfold printed_records, token_fetches, builds in *.
    rewrite !omap_app, Hr, Ht, Hb, Ht2, Hr2, Hb2. cbn [omap app].
    rewrite !app_nil_r. repeat split; try done.
    by rewrite replicate_S_end.
Qed.

Lemma driver_completes env start_roll end_roll tr :
  only_Exceptions env → completes env start_roll end_roll tr.
Proof.
  intros Honly.
  destruct (driver_outcome env start_roll end_roll tr) as [H|H]; [exact H|].
  destruct H as (visited & rn & rest & recs & tr1 & e & ext & _ & _ & Hf & He & _).
  destruct (fetch_total env (VInt rn) (tr1 ++ [EvPrint (progress_line rn)])%list Honly)
    as (d & tr' & Hd).
  congruence.
Qed.

(** C6, as the code has it: the roll numbers of the loop are [start_roll],
    [start_roll + 1], ... up to [end_roll], each once and in this order.  A
    run either goes through all of them, with one lookup per number (one token
    fetch each, at most one submission each), keeps the records in that order
    and then calls the report writer once, on all of them; or it is cut short
    by the first lookup that lets through an exception that is not an instance
    of [Exception], and then the report writer is not called.  With a site and
    a parser that raise instances of [Exception] only, the run goes through
    the whole range; with [end_roll = start_roll] there is then exactly one
    lookup and the table has two rows. *)
Theorem driver_iterates_range env start_roll end_roll tr :
  (∀ (i : nat) z,
     py_range start_roll (end_roll + 1) !! i = Some z ↔
     z = start_roll + Z.of_nat i ∧ start_roll + Z.of_nat i ≤ end_roll) ∧
  (completes env start_roll end_roll tr ∨ cut_short env start_roll end_roll tr) ∧
  (only_Exceptions env → completes env start_roll end_roll tr) ∧
  (only_Exceptions env →
   ∃ d tr1 ext,
     fetch_one_roll env (VInt start_roll) (tr ++ [EvPrint (progress_line start_roll)])%list
       = (Ok d, tr1) ∧
     driver env start_roll start_roll tr = report env [d] (tr1 ++ [EvPrintRecord d])%list ∧
     snd (driver env start_roll start_roll tr) = (tr ++ ext)%list ∧
     token_fetches ext = [Get BASE 20] ∧
     (length (submissions ext) ≤ 1)%nat ∧
     printed_records ext = [d] ∧
     builds ext = [("bise_results_summary.pdf", elements_of [d])] ∧
     length (table_rows [d]) = 2%nat).
Proof.
  split; [apply py_range_lookup|].
  split; [apply driver_outcome|].
  split; [apply driver_completes|].
  intros Honly.
  destruct (driver_completes env start_roll start_roll tr Honly)
    as (recs & tr1 & ext & Hl & Hd & Hlen & Htr & Hr & Ht & Hs & Hb).
  rewrite py_range_cons, py_range_empty in Hl by lia.
  apply lookups_single in Hl as (d & tr1' & Hf & -> & ->).
  exists d, tr1', ext. cbn in Ht, Hs.
  repeat split; done.
Qed.

Lemma driver_iterates_range_witness :
  completes Sample.offline 123456 123457 [] ∧
  ∃ d tr1 ext,
    fetch_one_roll Sample.offline (VInt 123456) ([] ++ [EvPrint (progress_line 123456)])%list
      = (Ok d, tr1) ∧
    driver Sample.offline 123456 123456 []
      = report Sample.offline [d] (tr1 ++ [EvPrintRecord d])%list ∧
    snd (driver Sample.offline 123456 123456 []) = ([] ++ ext)%list ∧
    token_fetches ext = [Get BASE 20] ∧
    (length (submissions ext) ≤ 1)%nat ∧
    printed_records ext = [d] ∧
    builds ext = [("bise_results_summary.pdf", elements_of [d])] ∧
    length (table_rows [d]) = 2%nat.
Proof.
  split.
  - destruct (driver_iterates_range Sample.offline 123456 123457 []) as (_ & _ & H & _).
    apply H, sample_offline_only_Exceptions.
  - destruct (driver_iterates_range Sample.offline 123456 123456 []) as (_ & _ & _ & H).
    apply H, sample_offline_only_Exceptions.
Defined.

(** C6 as stated does not hold: when the user interrupts the first token
    fetch of a range of two, the run ends there with [KeyboardInterrupt]; the
    second roll number is never looked up and the report writer is not
    called. *)
Lemma driver_can_be_cut_short :
  driver (Sample.site (Raise Sample.interrupted) (Sample.page "result")) 1 2 []
    = (Raise Sample.interrupted,
       [EvPrint (progress_line 1); EvRequest (Get BASE 20)]) ∧
  ¬ completes (Sample.site (Raise Sample.interrupted) (Sample.page "result")) 1 2 [].
Proof.
  assert (Hrun : driver (Sample.site (Raise Sample.interrupted) (Sample.page "result"))
                   1 2 []
                 = (Raise Sample.interrupted,
                    [EvPrint (progress_line 1); EvRequest (Get BASE 20)]))
    by (by vm_compute).
  split; [exact Hrun|].
  intros (recs & tr1 & ext & _ & Hd & _).
  rewrite Hrun, report_run in Hd. cbn [doc_build Sample.site] in Hd. discriminate Hd.
Qed.

(** C10: with [end_roll] below [start_roll] the driver makes no lookup and
    sends no request; it still calls the report writer once, on the empty
    list, and the table of the document is the header row alone. *)
Theorem empty_range_header_only env start_roll end_roll tr :
  end_roll < start_roll →
  let story :=
    [ Paragraph "BISE Sargodha Exam Results (Summary)" "Title";
      Spacer 1 20;
      Table [[VStr "Roll No"; VStr "Name"; VStr "Final Result"]] [100; 180; 250]
            table_style ] in
  py_range start_roll (end_roll + 1) = [] ∧
  driver env start_roll end_roll tr =
    match doc_build env tr "bise_results_summary.pdf" (landscape A4) story with
    | None =>
        (Ok [],
         (tr ++ [EvBuild "bise_results_summary.pdf" (landscape A4) story;
                 EvPrint "✅ PDF saved: bise_results_summary.pdf"])%list)
    | Some e =>
        (Raise e, (tr ++ [EvBuild "bise_results_summary.pdf" (landscape A4) story])%list)
    end.
Proof.
  intros Hlt story.
  split; [by apply py_range_empty|].
  rewrite driver_unfold, py_range_empty by exact Hlt.
  apply report_run.
Qed.

Lemma empty_range_header_only_witness :
  3 < 5 ∧
  driver Sample.offline 5 3 [] =
    (Ok [],
     [ EvBuild "bise_results_summary.pdf" (landscape A4)
         [ Paragraph "BISE Sargodha Exam Results (Summary)" "Title";
           Spacer 1 20;
           Table [[VStr "Roll No"; VStr "Name"; VStr "Final Result"]] [100; 180; 250]
                 table_style ];
       EvPrint "✅ PDF saved: bise_results_summary.pdf" ]).
Proof.
  split; [lia|].
  apply (empty_range_header_only Sample.offline 5 3 []). lia.
Defined.

(** C2, as the code has it: no token fetch lies outside the [try] block of a
    lookup.  When the first token fetch of a run raises an instance of
    [Exception], it is caught like any other: the first lookup returns the
    record with the roll number, an empty Name and "Error: " with the
    exception's text as Result, and the run goes on with the next roll number,
    this record kept.  With a site and a parser that raise instances of
    [Exception] only, the run then reaches the report writer, which is called
    on all the records, and the run raises only if the writer does. *)
Theorem first_token_failure_contained env start_roll end_roll tr e tr1 :
  start_roll ≤ end_roll →
  get_tokens env (tr ++ [EvPrint (progress_line start_roll)])%list = (Raise e, tr1) →
  is_Exception e = true →
  ∃ first,
    fetch_one_roll env (VInt start_roll) (tr ++ [EvPrint (progress_line start_roll)])%list
      = (Ok first, tr1) ∧
    first !! "Roll No" = Some (VInt start_roll) ∧
    first !! "Name" = Some (VStr "") ∧
    first !! "Result" = Some (VStr ("Error: " ++ exc_str e)) ∧
    driver env start_roll end_roll tr =
      match for_each (loop_body env) (py_range (start_roll + 1) (end_roll + 1)) [first]
              (tr1 ++ [EvPrintRecord first])%list with
      | (Ok results, tr2) => report env results tr2
      | (Raise x, tr2) => (Raise x, tr2)
      end ∧
    (only_Exceptions env →
     ∃ rest tr2,
       lookups_in_order env (py_range (start_roll + 1) (end_roll + 1))
         (tr1 ++ [EvPrintRecord first])%list rest tr2 ∧
       driver env start_roll end_roll tr = report env (first :: rest) tr2 ∧
       fst (driver env start_roll end_roll tr)
         = match doc_build env tr2 "bise_results_summary.pdf" (landscape A4)
                   (elements_of (first :: rest)) with
           | None => Ok (first :: rest)
           | Some x => Raise x
           end ∧
       builds (snd (driver env start_roll end_roll tr))
         = (builds tr ++ [("bise_results_summary.pdf", elements_of (first :: rest))])%list).
Proof.
  intros Hle Hg He.
  set (first := mk_record (VInt start_roll) (VStr "") (VStr ("Error: " ++ exc_str e))).
  assert (Hf : fetch_one_roll env (VInt start_roll)
                 (tr ++ [EvPrint (progress_line start_roll)])%list = (Ok first, tr1)).
  { apply fetch_caught; [|exact He]. by rewrite fetch_body_run, Hg. }
  assert (Hd : driver env start_roll end_roll tr =
      match for_each (loop_body env) (py_range (start_roll + 1) (end_roll + 1)) [first]
              (tr1 ++ [EvPrintRecord first])%list with
      | (Ok results, tr2) => report env results tr2
      | (Raise x, tr2) => (Raise x, tr2)
      end).
  { rewrite driver_unfold, py_range_cons by exact Hle. by rewrite for_each_cons, Hf. }
  exists first. split; [exact Hf|].
  destruct (mk_record_fields (VInt start_roll) (VStr "") (VStr ("Error: " ++ exc_str e)))
    as (Hroll & Hname & Hres).
  split; [exact Hroll|]. split; [exact Hname|]. split; [exact Hres|].
  split; [exact Hd|].
  intros Honly.
  destruct (for_each_lookups env (py_range (start_roll + 1) (end_roll + 1)) Honly [first]
              (tr1 ++ [EvPrintRecord first])%list) as (rest & tr2 & Hl & Hrun).
  exists rest, tr2. rewrite Hrun in Hd. cbn [app] in Hd.
  split; [exact Hl|]. split; [exact Hd|].
  rewrite Hd, report_run.
  apply lookups_trace in Hl as (_ & ext & -> & _ & _ & _ & _ & Hb).
  pose proof (get_tokens_run env (tr ++ [EvPrint (progress_line start_roll)])%list) as Hrun'.
  rewrite Hg in Hrun'. injection Hrun' as _ ->.
  unfold builds in *.
  destruct (doc_build env _ _ _ _); cbn [fst snd];
    (split; [reflexivity|]); rewrite !omap_app, Hb; cbn; by rewrite !app_nil_r.
Qed.

Lemma first_token_failure_contained_witness :
  ∃ first,
    fetch_one_roll Sample.offline (VInt 123456) ([] ++ [EvPrint (progress_line 123456)])%list
      = (Ok first, [EvPrint (progress_line 123456); EvRequest (Get BASE 20)]) ∧
    first !! "Roll No" = Some (VInt 123456) ∧
    first !! "Name" = Some (VStr "") ∧
    first !! "Result" = Some (VStr ("Error: " ++ exc_str Sample.timed_out)) ∧
    ∃ rest tr2,
      driver Sample.offline 123456 123457 [] = report Sample.offline (first :: rest) tr2.
Proof.
  destruct (first_token_failure_contained Sample.offline 123456 123457 []
              Sample.timed_out
              [EvPrint (progress_line 123456); EvRequest (Get BASE 20)])
    as (first & Hf & Hroll & Hname & Hres & _ & Hfull).
  - lia.
  - vm_compute. reflexivity.
  - reflexivity.
  - destruct (Hfull sample_offline_only_Exceptions) as (rest & tr2 & _ & Hd & _).
    exists first. repeat split; try assumption. by exists rest, tr2.
Defined.

(** C2 as stated does not hold: with a site that times out, the first token
    fetch of the script raises, and yet the script ends normally with one
    record and has called the document writer with it. *)
Lemma first_token_failure_not_fatal :
  fst (get_tokens Sample.offline [EvPrint (progress_line start_roll)])
    = Raise Sample.timed_out ∧
  fst (main Sample.offline)
    = Ok [mk_record (VInt 123456) (VStr "")
            (VStr "Error: Read timed out. (read timeout=20)")] ∧
  builds (snd (main Sample.offline))
    = [("bise_results_summary.pdf",
        elements_of [mk_record (VInt 123456) (VStr "")
                       (VStr "Error: Read timed out. (read timeout=20)")])] ∧
  ¬ first_fetch_fatal Sample.offline start_roll end_roll [].
Proof.
  split; [by vm_compute|].
  split; [by vm_compute|].
  split; [by vm_compute|].
  intros H.
  destruct (H Sample.timed_out
              [EvPrint (progress_line start_roll); EvRequest (Get BASE 20)])
    as (tr' & Hd & _).
  - by vm_compute.
  - vm_compute in Hd. discriminate Hd.
Qed.

(** * Further properties *)

(** ** Roll numbers as text *)

Lemma to_int_not_nil z : Z.to_int z ≠ Decimal.Pos Decimal.Nil ∧ Z.to_int z ≠ Decimal.Neg Decimal.Nil.
Proof.
  destruct z as [|p|p]; simpl; split; try discriminate;
    intros [= H]; by apply DecimalPos.Unsigned.to_uint_nonnil in H.
Qed.

(** X1: the text of an integer roll number determines it: two roll numbers
    with the same [str] are equal, so different roll numbers are searched for
    with different texts. *)
Theorem str_of_int_inj a b : str_of_int a = str_of_int b → a = b.
Proof.
  unfold str_of_int. intros H.
  apply (f_equal NilZero.int_of_string) in H.
  destruct (to_int_not_nil a), (to_int_not_nil b).
  rewrite !NilZero.isi in H by assumption.
  injection H as H. by apply DecimalZ.to_int_inj.
Qed.

Lemma str_of_int_inj_witness : 123456 = 123455 + 1.
Proof. apply str_of_int_inj. vm_compute. reflexivity. Defined.

(** ** The token fetcher, when the page is as expected *)

(** X2: when the GET is answered, the page parses and both hidden fields are
    there with a [value] attribute, [get_tokens] returns exactly these two
    values, in the order (view state, event validation). *)
Theorem get_tokens_success env tr r soup t1 t2 viewstate eventvalidation :
  server env tr (Get BASE 20) = Ok r →
  BeautifulSoup env (decode r "utf-8") "lxml" = Ok soup →
  select_one soup "#__VIEWSTATE" = Some t1 →
  attrs t1 !! "value" = Some viewstate →
  select_one soup "#__EVENTVALIDATION" = Some t2 →
  attrs t2 !! "value" = Some eventvalidation →
  get_tokens env tr
    = (Ok (viewstate, eventvalidation), (tr ++ [EvRequest (Get BASE 20)])%list).
Proof.
  intros Hr Hs H1 Ha1 H2 Ha2.
  rewrite get_tokens_run, Hr, Hs, H1, H2. unfold subscript. by rewrite Ha1, Ha2.
Qed.

Lemma get_tokens_success_witness :
  get_tokens (Sample.site (Sample.page "tokens") (Sample.page "result")) []
    = (Ok ("VS1", "EV1"), [EvRequest (Get BASE 20)]).
Proof.
  apply (get_tokens_success _ [] (mkResponse "ISO-8859-1" (fun _ => "tokens"))
           Sample.token_page (Sample.input "VS1") (Sample.input "EV1"));
    by vm_compute.
Defined.

(** ** What a lookup sends *)

(** X3: once the tokens are fetched, the lookup sends exactly one POST, to
    [BASE] with timeout 20, however the lookup then ends; its form carries the
    two tokens just fetched, the roll number as text and the two fixed
    indicators, and its headers are the fixed User-Agent and the Referer
    [BASE]. *)
Theorem submission_carries_tokens env roll_no tr viewstate eventvalidation tr1 :
  get_tokens env tr = (Ok (viewstate, eventvalidation), tr1) →
  ∃ r data hdrs,
    fetch_one_roll env roll_no tr
      = (r, (tr1 ++ [EvRequest (Post BASE data hdrs 20)])%list) ∧
    form_field data "__VIEWSTATE" = Some viewstate ∧
    form_field data "__EVENTVALIDATION" = Some eventvalidation ∧
    form_field data "TxtSearchText" = Some (py_str roll_no) ∧
    form_field data "RbtSearchType" = Some "Search by Roll No." ∧
    form_field data "BtnShowResults" = Some "Show Result" ∧
    form_field hdrs "User-Agent" = Some "Mozilla/5.0" ∧
    form_field hdrs "Referer" = Some BASE.
Proof.
  intros Ht.
  pose proof (fetch_body_run env roll_no tr) as Hb. rewrite Ht in Hb.
  destruct (fetch_body env roll_no tr) as [[d|e] tr2] eqn:E;
    injection Hb as _ ->.
  - exists (Ok d), (payload viewstate eventvalidation roll_no), headers.
    split; [by apply fetch_returned | by cbn].
  - destruct (is_Exception e) eqn:He.
    + eexists (Ok _), (payload viewstate eventvalidation roll_no), headers.
      split; [by apply fetch_caught | by cbn].
    + exists (Raise e), (payload viewstate eventvalidation roll_no), headers.
      split; [by apply fetch_passed | by cbn].
Qed.

Lemma submission_carries_tokens_witness :
  ∃ r data hdrs,
    fetch_one_roll (Sample.site (Sample.page "tokens") (Raise Sample.interrupted))
      (VInt 123456) []
      = (r, ([EvRequest (Get BASE 20)] ++ [EvRequest (Post BASE data hdrs 20)])%list) ∧
    form_field data "__VIEWSTATE" = Some "VS1" ∧
    form_field data "__EVENTVALIDATION" = Some "EV1" ∧
    form_field data "TxtSearchText" = Some (py_str (VInt 123456)) ∧
    form_field data "RbtSearchType" = Some "Search by Roll No." ∧
    form_field data "BtnShowResults" = Some "Show Result" ∧
    form_field hdrs "User-Agent" = Some "Mozilla/5.0" ∧
    form_field hdrs "Referer" = Some BASE.
Proof.
  apply (submission_carries_tokens
           (Sample.site (Sample.page "tokens") (Raise Sample.interrupted))
           (VInt 123456) [] "VS1" "EV1").
  by vm_compute.
Defined.

(** X4: when the token page has no [#__VIEWSTATE], or has it with a [value]
    and has no [#__EVENTVALIDATION], the lookup sends no POST: its only
    request is the GET, and its record has the input roll number, an empty
    Name and the text of the [TypeError] of subscripting [None] as Result. *)
Theorem missing_token_field env roll_no tr r soup :
  server env tr (Get BASE 20) = Ok r →
  BeautifulSoup env (decode r "utf-8") "lxml" = Ok soup →
  select_one soup "#__VIEWSTATE" = None ∨
  (∃ t v, select_one soup "#__VIEWSTATE" = Some t ∧ attrs t !! "value" = Some v ∧
          select_one soup "#__EVENTVALIDATION" = None) →
  ∃ d,
    fetch_one_roll env roll_no tr = (Ok d, (tr ++ [EvRequest (Get BASE 20)])%list) ∧
    d !! "Roll No" = Some roll_no ∧
    d !! "Name" = Some (VStr "") ∧
    d !! "Result" = Some (VStr "Error: 'NoneType' object is not subscriptable").
Proof.
  intros Hr Hs Hmiss. eexists. split; [|apply mk_record_fields].
  apply (fetch_caught env roll_no tr
           (mkExc "TypeError" "'NoneType' object is not subscriptable"));
    [|reflexivity].
  rewrite fetch_body_run, get_tokens_run, Hr, Hs.
  destruct Hmiss as [-> | (t & v & -> & Ha & ->)]; [reflexivity|].
  unfold subscript. by rewrite Ha.
Qed.

Lemma missing_token_field_witness :
  ∃ d,
    fetch_one_roll (Sample.site (Sample.page "half") (Sample.page "result")) (VInt 123456) []
      = (Ok d, ([] ++ [EvRequest (Get BASE 20)])%list) ∧
    d !! "Roll No" = Some (VInt 123456) ∧
    d !! "Name" = Some (VStr "") ∧
    d !! "Result" = Some (VStr "Error: 'NoneType' object is not subscriptable").
Proof.
  apply (missing_token_field _ _ [] (mkResponse "ISO-8859-1" (fun _ => "half"))
           {[ "__VIEWSTATE" := Sample.input "VS1" ]}).
  - reflexivity.
  - reflexivity.
  - right. exists (Sample.input "VS1"), "VS1". by vm_compute.
Defined.

(** X5: when [#__VIEWSTATE] is in the token page without a [value] attribute,
    or it has one and [#__EVENTVALIDATION] is there without a [value]
    attribute, the lookup sends no POST either, and its record has the input
    roll number, an empty Name and as Result the text of the [KeyError], the
    quoted attribute name. *)
Theorem valueless_token_field env roll_no tr r soup :
  server env tr (Get BASE 20) = Ok r →
  BeautifulSoup env (decode r "utf-8") "lxml" = Ok soup →
  (∃ t, select_one soup "#__VIEWSTATE" = Some t ∧ attrs t !! "value" = None) ∨
  (∃ t1 v t2, select_one soup "#__VIEWSTATE" = Some t1 ∧ attrs t1 !! "value" = Some v ∧
              select_one soup "#__EVENTVALIDATION" = Some t2 ∧
              attrs t2 !! "value" = None) →
  ∃ d,
    fetch_one_roll env roll_no tr = (Ok d, (tr ++ [EvRequest (Get BASE 20)])%list) ∧
    d !! "Roll No" = Some roll_no ∧
    d !! "Name" = Some (VStr "") ∧
    d !! "Result" = Some (VStr "Error: 'value'").
Proof.
  intros Hr Hs Hmiss. eexists. split; [|apply mk_record_fields].
  apply (fetch_caught env roll_no tr (mkExc "KeyError" "'value'")); [|reflexivity].
  rewrite fetch_body_run, get_tokens_run, Hr, Hs. unfold subscript.
  destruct Hmiss as [(t & -> & ->) | (t1 & v & t2 & -> & -> & -> & ->)]; reflexivity.
Qed.

Lemma valueless_token_field_witness :
  ∃ d,
    fetch_one_roll
      (Sample.site' (Sample.page "valueless") (Sample.page "result") None) (VInt 123456) []
      = (Ok d, ([] ++ [EvRequest (Get BASE 20)])%list) ∧
    d !! "Roll No" = Some (VInt 123456) ∧
    d !! "Name" = Some (VStr "") ∧
    d !! "Result" = Some (VStr "Error: 'value'").
Proof.
  apply (valueless_token_field _ _ [] (mkResponse "ISO-8859-1" (fun _ => "valueless"))
           Sample.valueless_page).
  - reflexivity.
  - reflexivity.
  - left. exists (Sample.label ""). by vm_compute.
Defined.

(** ** What a lookup reads *)

(** X6: an answer with none of the four fields is taken as a success: the
    record has the input roll number as text and empty Name and Result, and
    no error is reported. *)
Theorem blank_answer_is_success env roll_no tr soup tr' :
  answered env roll_no tr soup tr' →
  select_one soup "#LblErr" = None →
  select_one soup "#LblName" = None →
  select_one soup "#LblRollNo" = None →
  select_one soup "#lblGazres" = None →
  ∃ d,
    fetch_one_roll env roll_no tr = (Ok d, tr') ∧
    d !! "Roll No" = Some (VStr (py_str roll_no)) ∧
    d !! "Name" = Some (VStr "") ∧
    d !! "Result" = Some (VStr "").
Proof.
  intros Ha He Hn Hr Hg. eexists. split; [|apply mk_record_fields].
  rewrite (fetch_answered _ _ _ _ _ Ha). unfold read_result.
  by rewrite He, Hn, Hr, Hg.
Qed.

Lemma blank_answer_is_success_witness :
  ∃ d,
    fetch_one_roll (Sample.site (Sample.page "tokens") (Sample.page "blank"))
      (VInt 123456) []
      = (Ok d, [EvRequest (Get BASE 20);
                EvRequest (Post BASE (payload "VS1" "EV1" (VInt 123456)) headers 20)]) ∧
    d !! "Roll No" = Some (VStr (py_str (VInt 123456))) ∧
    d !! "Name" = Some (VStr "") ∧
    d !! "Result" = Some (VStr "").
Proof.
  apply (blank_answer_is_success _ _ _ Sample.blank_page);
    [apply sample_answered; reflexivity | by vm_compute ..].
Defined.

(** X7: the input roll number stands in only for an absent displayed-roll
    field: when the field is there with an empty text, the Roll No of the
    record is the empty text. *)
Theorem empty_roll_field_kept env roll_no tr soup tr' tag :
  answered env roll_no tr soup tr' →
  no_error soup →
  select_one soup "#LblRollNo" = Some tag →
  get_text_strip tag = "" →
  ∃ d, fetch_one_roll env roll_no tr = (Ok d, tr') ∧ d !! "Roll No" = Some (VStr "").
Proof.
  intros Ha Hn Hsel Hempty. eexists. split.
  - rewrite (fetch_answered _ _ _ _ _ Ha), (read_result_success _ _ Hn). reflexivity.
  - unfold field. rewrite Hsel. cbn [from_option]. rewrite Hempty.
    apply mk_record_fields.
Qed.

Lemma empty_roll_field_kept_witness :
  ∃ d, fetch_one_roll
         (Sample.site' (Sample.page "tokens") (Sample.page "emptyroll") None)
         (VInt 123456) []
       = (Ok d, ([EvRequest (Get BASE 20)] ++
                 [EvRequest (Post BASE (payload "VS1" "EV1" (VInt 123456)) headers 20)])%list)
       ∧ d !! "Roll No" = Some (VStr "").
Proof.
  apply (empty_roll_field_kept _ _ _ Sample.empty_roll_page _ (Sample.label "")).
  - exists "VS1", "EV1", [EvRequest (Get BASE 20)],
      (mkResponse "ISO-8859-1" (fun _ => "emptyroll")).
    by vm_compute.
  - left. by vm_compute.
  - by vm_compute.
  - reflexivity.
Defined.

(** X8: the charset a response declares plays no part: both pages are decoded
    as utf-8, so a lookup behaves the same whatever charset the server
    declares. *)
Theorem declared_encoding_ignored enc env roll_no tr :
  get_tokens (declaring enc env) tr = get_tokens env tr ∧
  fetch_one_roll (declaring enc env) roll_no tr = fetch_one_roll env roll_no tr.
Proof.
  assert (Hg : get_tokens (declaring enc env) tr = get_tokens env tr).
  { rewrite !get_tokens_run. cbn [declaring server BeautifulSoup].
    by destruct (server env tr (Get BASE 20)). }
  split; [exact Hg|].
  unfold fetch_one_roll, try_except. rewrite !fetch_body_run, Hg.
  destruct (get_tokens env tr) as [[[vs ev]|e] tr1]; [|reflexivity].
  cbn [declaring server BeautifulSoup].
  by destruct (server env tr1 _).
Qed.

(** ** Records and rows *)

(** X9: the row that the report writer makes of a record returned by a lookup
    is the record's three fields in the order Roll No, Name, Result, with no
    default filled in; the Name and Result cells are always texts, and the
    Roll No cell is the input value itself or a text. *)
Theorem lookup_record_row env roll_no tr d tr' :
  fetch_one_roll env roll_no tr = (Ok d, tr') →
  ∃ roll name res,
    d !! "Roll No" = Some roll ∧
    d !! "Name" = Some (VStr name) ∧
    d !! "Result" = Some (VStr res) ∧
    row_of d = [roll; VStr name; VStr res] ∧
    (roll = roll_no ∨ ∃ s, roll = VStr s).
Proof.
  assert (Hrow : ∀ a b c,
            mk_record a b c !! "Roll No" = Some a ∧
            mk_record a b c !! "Name" = Some b ∧
            mk_record a b c !! "Result" = Some c ∧
            row_of (mk_record a b c) = [a; b; c]).
  { intros a b c. unfold row_of, dict_get.
    destruct (mk_record_fields a b c) as (Ha & Hb & Hc). rewrite Ha, Hb, Hc. done. }
  intros H. apply fetch_Ok_cases in H as [(soup & _ & ->) | (e & _ & _ & ->)].
  - destruct (error_or_not soup) as [[msg He]|Hn].
    + rewrite (read_result_error _ _ _ He). exists roll_no, "", msg.
      destruct (Hrow roll_no (VStr "") (VStr msg)) as (? & ? & ? & ?).
      repeat split; try assumption. by left.
    + rewrite (read_result_success _ _ Hn). eexists _, _, _.
      destruct (Hrow (VStr (field soup "#LblRollNo" (py_str roll_no)))
                  (VStr (field soup "#LblName" "")) (VStr (field soup "#lblGazres" "")))
        as (? & ? & ? & ?).
      repeat split; try eassumption. right. eauto.
  - eexists roll_no, "", _.
    destruct (Hrow roll_no (VStr "") (VStr ("Error: " ++ exc_str e))) as (? & ? & ? & ?).
    repeat split; try eassumption. by left.
Qed.

Lemma lookup_record_row_witness :
  ∃ roll name res,
    read_result Sample.result_page (VInt 123456) !! "Roll No" = Some roll ∧
    read_result Sample.result_page (VInt 123456) !! "Name" = Some (VStr name) ∧
    read_result Sample.result_page (VInt 123456) !! "Result" = Some (VStr res) ∧
    row_of (read_result Sample.result_page (VInt 123456)) = [roll; VStr name; VStr res] ∧
    (roll = VInt 123456 ∨ ∃ s, roll = VStr s).
Proof.
  eapply (lookup_record_row (Sample.site (Sample.page "tokens") (Sample.page "result"))
            (VInt 123456) []).
  apply fetch_answered, sample_answered. reflexivity.
Defined.

(** X10: every row of the table handed to the document has as many cells as
    the table has column widths, three, whatever keys the records have or
    lack. *)
Theorem rows_have_three_cells data_list :
  ∃ rows widths style,
    Table rows widths style ∈ elements_of data_list ∧
    rows = table_rows data_list ∧
    length widths = 3%nat ∧
    Forall (fun row => length row = length widths) rows.
Proof.
  exists (table_rows data_list), [100; 180; 250], table_style.
  split; [unfold elements_of; set_solver|].
  split; [reflexivity|]. split; [reflexivity|].
  rewrite table_rows_map. constructor; [reflexivity|].
  induction data_list as [|entry rest IH]; cbn [map]; constructor;
    [reflexivity | exact IH].
Qed.

(** X11: a key other than "Roll No", "Name" and "Result" never reaches the
    document: setting it in any record of the list leaves the table as it
    was. *)
Theorem other_keys_ignored key v before entry after :
  key ≠ "Roll No" → key ≠ "Name" → key ≠ "Result" →
  table_rows (before ++ <[key := v]> entry :: after)
    = table_rows (before ++ entry :: after).
Proof.
  intros H1 H2 H3. rewrite !table_rows_map, !map_app. cbn [map].
  do 3 f_equal. unfold row_of, dict_get. by rewrite !lookup_insert_ne.
Qed.

Lemma other_keys_ignored_witness :
  table_rows ([] ++ <["Age" := VInt 17]> (mk_record (VInt 1) (VStr "ALI") (VStr "PASS")) :: [])
    = table_rows ([] ++ mk_record (VInt 1) (VStr "ALI") (VStr "PASS") :: []).
Proof. apply other_keys_ignored; discriminate. Defined.

(** ** The requests of a run *)

(** The requests of one lookup, however it ends: the GET alone when the token
    fetch raises, the GET and the POST of the form when it returns. *)
Lemma fetch_trace_exact env roll_no tr r tr' :
  fetch_one_roll env roll_no tr = (r, tr') →
  match get_tokens env tr with
  | (Raise _, _) => tr' = (tr ++ [EvRequest (Get BASE 20)])%list
  | (Ok (viewstate, eventvalidation), _) =>
      tr' = (tr ++ [EvRequest (Get BASE 20);
                    EvRequest (Post BASE (payload viewstate eventvalidation roll_no)
                                 headers 20)])%list
  end.
Proof.
  assert (Hbody : ∀ r0 tr0, fetch_body env roll_no tr = (r0, tr0) →
            match get_tokens env tr with
            | (Raise _, _) => tr0 = (tr ++ [EvRequest (Get BASE 20)])%list
            | (Ok (viewstate, eventvalidation), _) =>
                tr0 = (tr ++ [EvRequest (Get BASE 20);
                              EvRequest (Post BASE (payload viewstate eventvalidation roll_no)
                                           headers 20)])%list
            end).
  { intros r0 tr0. rewrite fetch_body_run.
    pose proof (get_tokens_run env tr) as Hg.
    destruct (get_tokens env tr) as [[[vs ev]|e] tr1]; injection Hg as _ ->;
      intros [= _ <-]; [|reflexivity].
    by rewrite <- app_assoc. }
  unfold fetch_one_roll, try_except.
  destruct (fetch_body env roll_no tr) as [[d|e] tr0] eqn:E;
    [|destruct (is_Exception e)]; intros [= _ <-]; by eapply Hbody.
Qed.

Lemma requests_app (tr1 tr2 : Trace) :
  requests (tr1 ++ tr2)%list = (requests tr1 ++ requests tr2)%list.
Proof. apply omap_app. Qed.

Lemma searches_app (tr1 tr2 : Trace) :
  searches (tr1 ++ tr2)%list = (searches tr1 ++ searches tr2)%list.
Proof. unfold searches. by rewrite requests_app, omap_app. Qed.

(** What the loop requests, however it ends, set against the token fetches of
    its lookups. *)
Lemma for_each_requests env rns :
  ∀ acc tr, ∃ texts ext,
    searched_in_order env rns tr texts ∧
    snd (for_each (loop_body env) rns acc tr) = (tr ++ ext)%list ∧
    Forall (fun rq => request_url rq = BASE ∧ request_timeout rq = 20) (requests ext) ∧
    searches ext = texts ∧
    texts `sublist_of` (str_of_int <$> rns).
Proof.
  induction rns as [|rn rns IH]; intros acc tr.
  - exists [], []. cbn. rewrite app_nil_r. repeat split; constructor.
  - rewrite for_each_cons.
    destruct (fetch_one_roll env (VInt rn) (tr ++ [EvPrint (progress_line rn)])%list)
      as [[d|e'] tr2] eqn:Hf; pose proof (fetch_trace_exact _ _ _ _ _ Hf) as Htr;
      destruct (get_tokens env (tr ++ [EvPrint (progress_line rn)])%list)
        as [[[vs ev]|e] tr1] eqn:Hg; subst tr2.
    + destruct (IH (acc ++ [d])%list
                  (((tr ++ [EvPrint (progress_line rn)]) ++
                    [EvRequest (Get BASE 20);
                     EvRequest (Post BASE (payload vs ev (VInt rn)) headers 20)]) ++
                   [EvPrintRecord d])%list)
        as (texts & ext & Hsearched & -> & Hall & Hs & Hsub).
      exists (str_of_int rn :: texts),
        ([EvPrint (progress_line rn); EvRequest (Get BASE 20);
          EvRequest (Post BASE (payload vs ev (VInt rn)) headers 20);
          EvPrintRecord d] ++ ext)%list.
      split; [by eapply searched_sent|].
      split; [by rewrite <- !app_assoc|].
      rewrite requests_app, searches_app, Hs. split; [|split; [reflexivity|]].
      * apply Forall_app. split; [|exact Hall]. by repeat constructor.
      * cbn. by apply sublist_skip.
    + destruct (IH (acc ++ [d])%list
                  (((tr ++ [EvPrint (progress_line rn)]) ++ [EvRequest (Get BASE 20)]) ++
                   [EvPrintRecord d])%list)
        as (texts & ext & Hsearched & -> & Hall & Hs & Hsub).
      exists texts,
        ([EvPrint (progress_line rn); EvRequest (Get BASE 20); EvPrintRecord d]
           ++ ext)%list.
      split; [by eapply searched_skip|].
      split; [by rewrite <- !app_assoc|].
      rewrite requests_app, searches_app, Hs. split; [|split; [reflexivity|]].
      * apply Forall_app. split; [|exact Hall]. by repeat constructor.
      * cbn. by apply sublist_cons.
    + exists [str_of_int rn],
        [EvPrint (progress_line rn); EvRequest (Get BASE 20);
         EvRequest (Post BASE (payload vs ev (VInt rn)) headers 20)].
      split; [by eapply searched_sent_stop|].
      split; [by rewrite <- !app_assoc|].
      split; [by repeat constructor|]. split; [reflexivity|].
      cbn. apply sublist_skip, sublist_nil_l.
    + exists [], [EvPrint (progress_line rn); EvRequest (Get BASE 20)].
      split; [by eapply searched_skip_stop|].
      split; [by rewrite <- !app_assoc|].
      split; [by repeat constructor|]. split; [reflexivity|].
      apply sublist_nil_l.
Qed.

(** The same for a whole run: the report stage adds no request. *)
Lemma driver_requests env start_roll end_roll tr :
  ∃ texts ext,
    searched_in_order env (py_range start_roll (end_roll + 1)) tr texts ∧
    snd (driver env start_roll end_roll tr) = (tr ++ ext)%list ∧
    Forall (fun rq => request_url rq = BASE ∧ request_timeout rq = 20) (requests ext) ∧
    searches ext = texts ∧
    texts `sublist_of` (str_of_int <$> py_range start_roll (end_roll + 1)).
Proof.
  destruct (for_each_requests env (py_range start_roll (end_roll + 1)) [] tr)
    as (texts & ext & Hsearched & Htr & Hall & Hs & Hsub).
  rewrite driver_unfold.
  destruct (for_each (loop_body env) _ [] tr) as [[results|e] tr1]; cbn [snd] in Htr;
    subst tr1.
  - rewrite report_run.
    destruct (doc_build env _ _ _ _); cbn [snd]; exists texts; eexists (ext ++ _)%list;
      (split; [exact Hsearched|]); (split; [by rewrite <- app_assoc|]);
      rewrite requests_app, searches_app, Hs; cbn; rewrite !app_nil_r; done.
  - by exists texts, ext.
Qed.

(** X12: every request of a run, token fetch or submission, goes to [BASE]
    with a timeout of 20: the script contacts no other address. *)
Theorem requests_only_to_base env start_roll end_roll tr :
  ∃ ext, snd (driver env start_roll end_roll tr) = (tr ++ ext)%list ∧
         Forall (fun rq => request_url rq = BASE ∧ request_timeout rq = 20)
                (requests ext).
Proof.
  destruct (driver_requests env start_roll end_roll tr)
    as (texts & ext & _ & Htr & Hall & _).
  by exists ext.
Qed.

(** The token fetches decide the searched texts: there is one list of them. *)
Lemma searched_in_order_unique env rns tr texts1 texts2 :
  searched_in_order env rns tr texts1 →
  searched_in_order env rns tr texts2 →
  texts1 = texts2.
Proof.
  intros H1. revert texts2.
  induction H1 as [tr | rn rns tr e tr1 d tr2 texts Hg Hf _ IH
                  | rn rns tr e tr1 e' tr2 Hg Hf
                  | rn rns tr tokens tr1 d tr2 texts Hg Hf _ IH
                  | rn rns tr tokens tr1 e' tr2 Hg Hf];
    intros texts2 H2; inversion H2; subst; try congruence.
  - apply IH. congruence.
  - f_equal. apply IH. congruence.
Qed.

(** X13: the roll-number texts that a run submits are exactly, and in order,
    the texts of the roll numbers whose token fetch returns, up to the first
    lookup that raises: a roll number is searched for once when the token
    fetch of its lookup returns and not at all when it raises.  So they are
    texts of roll numbers of the range, ascending, each at most once. *)
Theorem searches_in_range_order env start_roll end_roll tr :
  ∃ ext,
    snd (driver env start_roll end_roll tr) = (tr ++ ext)%list ∧
    searched_in_order env (py_range start_roll (end_roll + 1)) tr (searches ext) ∧
    (∀ texts, searched_in_order env (py_range start_roll (end_roll + 1)) tr texts →
              searches ext = texts) ∧
    searches ext `sublist_of` (str_of_int <$> py_range start_roll (end_roll + 1)).
Proof.
  destruct (driver_requests env start_roll end_roll tr)
    as (texts & ext & Hsearched & Htr & _ & <- & Hsub).
  exists ext. split; [exact Htr|]. split; [exact Hsearched|]. split; [|exact Hsub].
  intros texts. by apply searched_in_order_unique.
Qed.

Lemma searches_in_range_order_witness :
  ∃ ext,
    snd (driver (Sample.site (Sample.page "tokens") (Sample.page "result")) 1 2 [])
      = ([] ++ ext)%list ∧
    searches ext = ["1"; "2"].
Proof.
  destruct (searches_in_range_order
              (Sample.site (Sample.page "tokens") (Sample.page "result")) 1 2 [])
    as (ext & Htr & _ & Hexact & _).
  exists ext. split; [exact Htr|].
  apply Hexact.
  change (py_range 1 (2 + 1)) with [1; 2].
  eapply (searched_sent _ 1); [by vm_compute | by vm_compute |].
  eapply (searched_sent _ 2); [by vm_compute | by vm_compute |].
  constructor.
Defined.

(** ** Whole runs *)

(** A lookup on an unreachable site: the GET raises and nothing more is
    sent. *)
Lemma fetch_unreachable env roll_no tr :
  unreachable env →
  ∃ e, is_Exception e = true ∧
       fetch_one_roll env roll_no tr
         = (Ok (mk_record roll_no (VStr "") (VStr ("Error: " ++ exc_str e))),
            (tr ++ [EvRequest (Get BASE 20)])%list).
Proof.
  intros Hdown. destruct (Hdown tr (Get BASE 20)) as (e & He & Hexc).
  exists e. split; [exact Hexc|].
  apply fetch_caught; [|exact Hexc]. by rewrite fetch_body_run, get_tokens_run, He.
Qed.

Lemma lookups_unreachable env rns tr recs tr' :
  unreachable env →
  lookups_in_order env rns tr recs tr' →
  Forall2 (fun rn d => ∃ e, is_Exception e = true ∧
                            d !! "Roll No" = Some (VInt rn) ∧
                            d !! "Name" = Some (VStr "") ∧
                            d !! "Result" = Some (VStr ("Error: " ++ exc_str e)))
          rns recs ∧
  ∃ ext, tr' = (tr ++ ext)%list ∧ submissions ext = [] ∧ builds ext = [].
Proof.
  intros Hdown.
  induction 1 as [tr | rn rns tr d tr1 ds tr2 Hf _ (IH & ext2 & -> & Hs & Hb)].
  - split; [constructor|]. exists []. by rewrite app_nil_r.
  - destruct (fetch_unreachable env (VInt rn) (tr ++ [EvPrint (progress_line rn)])%list
                Hdown) as (e & Hexc & He).
    rewrite He in Hf. injection Hf as <- <-.
    split.
    + constructor; [|exact IH]. exists e. split; [exact Hexc|]. apply mk_record_fields.
    + eexists ([EvPrint (progress_line rn); EvRequest (Get BASE 20); EvPrintRecord _]
                 ++ ext2)%list.
      split; [by rewrite <- !app_assoc|].
      unfold submissions, builds in *. rewrite !omap_app, Hs, Hb. by split.
Qed.

(** X14: when the site cannot be reached at all, every request raising an
    instance of [Exception], the run still goes through the whole range: it
    keeps one record per roll number, in order, each with the integer roll
    number itself, an empty Name and an "Error: ..." Result, submits no form,
    and calls the document writer with these records. *)
Theorem unreachable_run env start_roll end_roll tr :
  unreachable env →
  ∃ recs ext,
    Forall2 (fun rn d => ∃ e, is_Exception e = true ∧
                              d !! "Roll No" = Some (VInt rn) ∧
                              d !! "Name" = Some (VStr "") ∧
                              d !! "Result" = Some (VStr ("Error: " ++ exc_str e)))
            (py_range start_roll (end_roll + 1)) recs ∧
    snd (driver env start_roll end_roll tr) = (tr ++ ext)%list ∧
    submissions ext = [] ∧
    builds ext = [("bise_results_summary.pdf", elements_of recs)].
Proof.
  intros Hdown.
  destruct (for_each_run env (py_range start_roll (end_roll + 1)) [] tr)
    as [(recs & tr1 & Hl & Hrun)
       | (visited & rn & rest & recs & tr1 & e & tr' & _ & _ & Hf & _)].
  - cbn [app] in Hrun. pose proof (driver_run _ _ _ _ _ _ Hrun) as Hd.
    destruct (lookups_unreachable _ _ _ _ _ Hdown Hl) as (Hrecs & ext1 & -> & Hs & Hb).
    destruct (report_trace env recs (tr ++ ext1)%list)
      as (ext2 & Htr & _ & Hs2 & _ & Hb2).
    exists recs, (ext1 ++ ext2)%list.
    split; [exact Hrecs|]. split; [by rewrite Hd, Htr, <- app_assoc|].
    unfold submissions, builds in *. rewrite !omap_app, Hs, Hs2, Hb, Hb2. by split.
  - destruct (fetch_unreachable env (VInt rn) (tr1 ++ [EvPrint (progress_line rn)])%list
                Hdown) as (e0 & _ & He0).
    congruence.
Qed.

Lemma sample_offline_unreachable : unreachable Sample.offline.
Proof. intros tr [u t | u d h t]; by exists Sample.timed_out. Qed.

Lemma unreachable_run_witness :
  ∃ recs ext,
    Forall2 (fun rn d => ∃ e, is_Exception e = true ∧
                              d !! "Roll No" = Some (VInt rn) ∧
                              d !! "Name" = Some (VStr "") ∧
                              d !! "Result" = Some (VStr ("Error: " ++ exc_str e)))
            (py_range 7 (9 + 1)) recs ∧
    snd (driver Sample.offline 7 9 []) = ([] ++ ext)%list ∧
    submissions ext = [] ∧
    builds ext = [("bise_results_summary.pdf", elements_of recs)].
Proof. apply unreachable_run. apply sample_offline_unreachable. Defined.

Lemma progress_line_not_saved rn : progress_line rn ≠ saved_line.
Proof. unfold progress_line, saved_line. cbn [append]. discriminate. Qed.

(** A loop that does all its lookups leaves the outcome to the writer. *)
Lemma loop_done_ends_in_writer env start_roll end_roll tr recs tr1 :
  lookups_in_order env (py_range start_roll (end_roll + 1)) tr recs tr1 →
  for_each (loop_body env) (py_range start_roll (end_roll + 1)) [] tr = (Ok recs, tr1) →
  ends_in_writer env start_roll end_roll tr.
Proof.
  intros Hl Hrun. pose proof (driver_run _ _ _ _ _ _ Hrun) as Hd.
  destruct (lookups_trace _ _ _ _ _ Hl) as (_ & ext1 & Htr1 & Hlines & _ & _ & _ & Hb).
  subst tr1. unfold ends_in_writer. rewrite Hd, report_run.
  destruct (doc_build env (tr ++ ext1)%list _ _ _) as [x|] eqn:Ew.
  - exists recs, (tr ++ ext1)%list, (ext1 ++ [EvBuild "bise_results_summary.pdf"
                                              (landscape A4) (elements_of recs)])%list.
    split; [exact Hl|]. split; [by rewrite <- app_assoc|].
    split; [unfold builds in *; by rewrite omap_app, Hb|].
    rewrite Ew. split; [reflexivity|].
    unfold printed_lines in *. rewrite omap_app, Hlines. cbn. rewrite app_nil_r.
    intros Hin. apply list_elem_of_In, in_map_iff in Hin as (rn & Hrn & _).
    by apply progress_line_not_saved in Hrn.
  - exists recs, (tr ++ ext1)%list,
      (ext1 ++ [EvBuild "bise_results_summary.pdf" (landscape A4) (elements_of recs);
                EvPrint saved_line])%list.
    split; [exact Hl|]. split; [by rewrite <- app_assoc|].
    split; [unfold builds in *; by rewrite omap_app, Hb|].
    rewrite Ew. split; [reflexivity|].
    unfold printed_lines. rewrite omap_app. cbn. set_solver.
Qed.

(** X15: a run raises in two ways only.  Either all the lookups return and
    the document writer raises: the run raises the writer's exception, after
    the one call of the writer.  Or a lookup lets through an exception that is
    not an instance of [Exception]: the run raises it and the writer is never
    called.  In both cases the closing "PDF saved" line is not printed; in any
    other run all the records are returned and that line is printed.  With a
    site and a parser that raise instances of [Exception] only, the outcome is
    the writer's. *)
Theorem run_outcomes env start_roll end_roll tr :
  (ends_in_writer env start_roll end_roll tr ∨
   ∃ x ext,
     driver env start_roll end_roll tr = (Raise x, (tr ++ ext)%list) ∧
     is_Exception x = false ∧
     builds ext = [] ∧
     saved_line ∉ printed_lines ext) ∧
  (only_Exceptions env → ends_in_writer env start_roll end_roll tr).
Proof.
  split.
  - destruct (for_each_run env (py_range start_roll (end_roll + 1)) [] tr)
      as [(recs & tr1 & Hl & Hrun)
         | (visited & rn & rest & recs & tr1 & e & tr' & _ & Hl & Hf & He & Hrun)].
    + left. by eapply loop_done_ends_in_writer.
    + right.
      destruct (lookups_trace _ _ _ _ _ Hl) as (_ & ext1 & -> & Hlines & _ & _ & _ & Hb).
      apply fetch_trace in Hf as (ext2 & -> & _ & _ & Hlines2 & _ & Hb2).
      exists e, (ext1 ++ [EvPrint (progress_line rn)] ++ ext2)%list.
      split; [by rewrite driver_unfold, Hrun, !app_assoc|].
      split; [exact He|].
      unfold builds, printed_lines in *.
      rewrite !omap_app, Hb, Hb2, Hlines, Hlines2. cbn. split; [reflexivity|].
      intros Hin. apply elem_of_app in Hin as [Hin|Hin].
      * apply list_elem_of_In, in_map_iff in Hin as (rn' & Hrn & _).
        by apply progress_line_not_saved in Hrn.
      * apply list_elem_of_singleton in Hin. symmetry in Hin.
        by apply progress_line_not_saved in Hin.
  - intros Honly.
    destruct (for_each_lookups env (py_range start_roll (end_roll + 1)) Honly [] tr)
      as (recs & tr1 & Hl & Hrun).
    by eapply loop_done_ends_in_writer.
Qed.

Lemma run_outcomes_witness :
  fst (driver (Sample.site' (Sample.page "tokens") (Sample.page "result")
                 (Some Sample.disk_full)) 1 2 [])
    = Raise Sample.disk_full.
Proof.
  destruct (run_outcomes
              (Sample.site' (Sample.page "tokens") (Sample.page "result")
                 (Some Sample.disk_full)) 1 2 [])
    as (_ & H).
  destruct H as (recs & tr1 & ext & _ & _ & _ & H).
  - split.
    + intros tr [u t | u d h t] e; cbn; by intros [= <-].
    + intros markup features e. unfold BeautifulSoup, Sample.site', Sample.lxml'.
      repeat (destruct (String.eqb markup _); [discriminate|]).
      apply sample_lxml_raises.
  - cbn [doc_build Sample.site'] in H. exact (proj1 H).
Defined.

(** X16: a run calls the document writer at most once.  When it does, the
    story is the title, the space and the table, and the table has one row
    more than the range has roll numbers, the header row first; and it does
    whenever the site and the parser raise instances of [Exception] only. *)
Theorem document_row_count env start_roll end_roll tr :
  ∃ ext,
    snd (driver env start_roll end_roll tr) = (tr ++ ext)%list ∧
    (builds ext = [] ∨
     ∃ rows,
       builds ext
         = [("bise_results_summary.pdf",
             [ Paragraph "BISE Sargodha Exam Results (Summary)" "Title";
               Spacer 1 20;
               Table rows [100; 180; 250] table_style ])] ∧
       length rows = S (Z.to_nat (end_roll - start_roll + 1)) ∧
       rows !! 0%nat = Some [VStr "Roll No"; VStr "Name"; VStr "Final Result"]) ∧
    (only_Exceptions env → builds ext ≠ []).
Proof.
  destruct (driver_outcome env start_roll end_roll tr)
    as [(recs & tr1 & ext & _ & _ & Hlen & Htr & _ & _ & _ & Hb)
       | (visited & rn & rest & recs & tr1 & e & ext & _ & _ & Hf & _ & Hd & _ & _ & Hb)].
  - exists ext. split; [exact Htr|]. rewrite Hb. split; [|discriminate].
    right. exists (table_rows recs). split; [reflexivity|].
    rewrite table_rows_map. cbn [length]. by rewrite length_map, Hlen.
  - exists ext. split; [by rewrite Hd|]. split; [by left|].
    intros Honly.
    destruct (fetch_total env (VInt rn) (tr1 ++ [EvPrint (progress_line rn)])%list Honly)
      as (d & tr' & Hok).
    congruence.
Qed.

Lemma document_row_count_witness :
  ∃ ext,
    snd (driver Sample.offline 7 9 []) = ([] ++ ext)%list ∧ builds ext ≠ [].
Proof.
  destruct (document_row_count Sample.offline 7 9 []) as (ext & Htr & _ & H).
  exists ext. split; [exact Htr|]. apply H, sample_offline_only_Exceptions.
Defined.
